(** * Azure Data Explorer MCP server: a shallow embedding and its properties

    The repository holds three variants of one class, [AdxMcpServer]:
    - [LocalStore]: the first text of [src/adxMcpServer.ts] (SQLite-backed
      schema resource and query tool, not rendered here, and a
      configuration resource without mask);
    - [Templated]: the second text of [src/adxMcpServer.ts] (high-level
      [McpServer] with resource templates and the remote query tool);
    - [LowLevel]: the low-level [Server] variant, which registers request
      handlers by hand and matches addresses with regular expressions.

    JavaScript strings are rendered as [string] (the patterns and the
    separators of the source are ASCII, and no character outside ASCII is
    in [\w]); [undefined] as [None]; a thrown exception or a rejected
    promise as the [Throw] completion. The client library with the cluster
    behind it, the transport and the [.env] file are opaque collaborators
    passed in as values. Of the protocol library only what the repository
    relies on is rendered: what [resource], [tool] and [setRequestHandler]
    record, the handlers its own constructor registers, and what its
    request boundary makes of a returned value and of a thrown error. *)

From Stdlib Require Import Ascii String List Bool.
From stdpp Require Import base option list strings gmap.

(** ** JavaScript values used by the handlers *)

Module Js.

(** [!!s] for a string: the empty string is falsy. *)
Definition truthy (s : string) : bool :=
  match s with
  | EmptyString => false
  | String _ _ => true
  end.

(** [!!v] for a value that may be [undefined]. *)
Definition truthy_opt (v : option string) : bool :=
  match v with
  | None => false
  | Some s => truthy s
  end.

(** A template literal hole, [`${v}`]: [undefined] prints as its name. *)
Definition interpolate (v : option string) : string :=
  match v with
  | None => "undefined"
  | Some s => s
  end.

(** [s.startsWith(p)]. *)
Definition startsWith (s p : string) : bool := String.prefix p s.

(** [s.split(sep)] for a one-character separator. The result is never
    empty: a string without separator yields itself. *)
Fixpoint split (sep : ascii) (s : string) : list string :=
  match s with
  | EmptyString => [EmptyString]
  | String c s' =>
      if Ascii.eqb c sep then EmptyString :: split sep s'
      else match split sep s' with
           | [] => [String c EmptyString]
           | w :: ws => String c w :: ws
           end
  end.

(** Thrown values: an [Error] object, a [TypeError] object, or any other
    value, which is observed through [String(value)]. *)
Inductive Error : Type :=
| PlainError (message : string)
| TypeError (message : string)
| Thrown (text : string).

(** [err.message]; a thrown value that is not an error object has none. *)
Definition message (e : Error) : option string :=
  match e with
  | PlainError m => Some m
  | TypeError m => Some m
  | Thrown _ => None
  end.

End Js.

(** ** Regular expressions of the low-level variant

    The three patterns of the source use literal characters, the class
    [\w], the quantifier [+] and the end anchor [$]; none has a start
    anchor or a flag. *)

Module Regex.

Inductive regex : Type :=
| Void
| Eps
| Lit (c : ascii)
| WordChar
| Cat (r1 r2 : regex)
| Alt (r1 r2 : regex)
| Star (r : regex).

(** [r+] *)
Definition Plus (r : regex) : regex := Cat r (Star r).

(** A run of literal characters. *)
Fixpoint lits (s : string) : regex :=
  match s with
  | EmptyString => Eps
  | String c s' => Cat (Lit c) (lits s')
  end.

(** The class [\w] without the unicode or ignore-case flag:
    [A-Za-z0-9_]. *)
Definition is_word (c : ascii) : bool :=
  let n := nat_of_ascii c in
  (Nat.leb 65 n && Nat.leb n 90) || (Nat.leb 97 n && Nat.leb n 122)
  || (Nat.leb 48 n && Nat.leb n 57) || Nat.eqb n 95.

Fixpoint nullable (r : regex) : bool :=
  match r with
  | Void => false
  | Eps => true
  | Lit _ => false
  | WordChar => false
  | Cat r1 r2 => nullable r1 && nullable r2
  | Alt r1 r2 => nullable r1 || nullable r2
  | Star _ => true
  end.

Fixpoint deriv (c : ascii) (r : regex) : regex :=
  match r with
  | Void => Void
  | Eps => Void
  | Lit d => if Ascii.eqb c d then Eps else Void
  | WordChar => if is_word c then Eps else Void
  | Cat r1 r2 =>
      if nullable r1 then Alt (Cat (deriv c r1) r2) (deriv c r2)
      else Cat (deriv c r1) r2
  | Alt r1 r2 => Alt (deriv c r1) (deriv c r2)
  | Star r1 => Cat (deriv c r1) (Star r1)
  end.

(** The whole of [s] is a word of [r]. *)
Fixpoint matches (r : regex) (s : string) : bool :=
  match s with
  | EmptyString => nullable r
  | String c s' => matches (deriv c r) s'
  end.

(** All the strings obtained by dropping a prefix of [s], longest first. *)
Fixpoint suffixes (s : string) : list string :=
  s :: match s with
       | EmptyString => []
       | String _ s' => suffixes s'
       end.

(** [/body$/.test(s)]: with no start anchor the search tries every start
    offset; the end anchor forces the match to reach the end of [s]. *)
Definition test_to_end (body : regex) (s : string) : bool :=
  existsb (matches body) (suffixes s).

(** Declarative reading of a pattern, used to reason about [matches]. *)
Inductive Matches : regex -> string -> Prop :=
| MEps : Matches Eps EmptyString
| MLit c : Matches (Lit c) (String c EmptyString)
| MWord c : is_word c = true -> Matches WordChar (String c EmptyString)
| MCat r1 r2 s1 s2 :
    Matches r1 s1 -> Matches r2 s2 -> Matches (Cat r1 r2) (s1 +:+ s2)
| MAltL r1 r2 s : Matches r1 s -> Matches (Alt r1 r2) s
| MAltR r1 r2 s : Matches r2 s -> Matches (Alt r1 r2) s
| MStarNil r : Matches (Star r) EmptyString
| MStarApp r s1 s2 :
    Matches r s1 -> Matches (Star r) s2 -> Matches (Star r) (s1 +:+ s2).

(** Every character of [s] is in [\w]. *)
Fixpoint all_word (s : string) : bool :=
  match s with
  | EmptyString => true
  | String c s' => is_word c && all_word s'
  end.

(** A non-empty run of [\w] characters: what [\w+] accepts. *)
Definition identifier (s : string) : bool := Js.truthy s && all_word s.

(** [c] does not occur in [s]. *)
Fixpoint lacks (c : ascii) (s : string) : bool :=
  match s with
  | EmptyString => true
  | String d s' => negb (Ascii.eqb d c) && lacks c s'
  end.

End Regex.

(** ** The remote execution client ([azure-kusto-data]), as far as the
    server observes it *)

Module Kusto.

(** A result table is observed only through [toString()]. *)
Record KustoResultTable : Type := { toString : string }.

Record KustoResponseDataSet : Type :=
  { primaryResults : list KustoResultTable }.

(** What a connection string builder holds once it is built. *)
Record KustoConnectionStringBuilder : Type :=
  { dataSource : string;
    applicationClientId : string;
    applicationKey : string;
    authorityId : string }.

(** The client library and the cluster behind it, both outside the
    repository. The builder and the client constructor check what they are
    given and may throw (a blank application id or key, a data source that
    is not a URL); which builder a connection string yields, which input
    is refused and what a query answers is theirs to say. *)
Record Cluster : Type :=
  { builder :
      string -> string -> string -> string ->
      Js.Error + KustoConnectionStringBuilder;
    constructor_error : KustoConnectionStringBuilder -> option Js.Error;
    answer :
      KustoConnectionStringBuilder -> string -> string ->
      Js.Error + KustoResponseDataSet }.

(** [KustoConnectionStringBuilder.withAadApplicationKeyAuthentication]. *)
Definition withAadApplicationKeyAuthentication (remote : Cluster)
    (connectionString aadAppId appKey authorityId : string)
  : Js.Error + KustoConnectionStringBuilder :=
  builder remote connectionString aadAppId appKey authorityId.

Record Client : Type :=
  { kcsb : KustoConnectionStringBuilder;
    execute : string -> string -> Js.Error + KustoResponseDataSet }.

(** [new Client(kcsb)]. *)
Definition new_Client (remote : Cluster) (k : KustoConnectionStringBuilder)
  : Js.Error + Client :=
  match constructor_error remote k with
  | Some e => inl e
  | None => inr {| kcsb := k; execute := answer remote k |}
  end.

End Kusto.

(** ** Effects: instance state, exceptions and the trace of outside calls *)

Module Eff.

(** One problem found by [zod] while parsing the environment. *)
Inductive ZodIssue : Type :=
| Required (path : string)
| TooSmall (path message : string).

Inductive Logged : Type :=
| LoggedIssues (issues : list ZodIssue)
| LoggedError (err : Js.Error).

(** What the program does to the outside, in order. *)
Inductive event : Type :=
| KustoExecute (db query : string)
| KustoClose
| ConsoleError (label : string) (detail : Logged)
| ProcessExit (code : nat).

(** What handlers and life-cycle methods read and write: [process.env]
    and the field [this.client]. *)
Record Ctx : Type :=
  { process_env : gmap string string;
    client : option Kusto.Client }.

Inductive completion (A : Type) : Type :=
| Normal (a : A)
| Throw (e : Js.Error).
Arguments Normal {A} a.
Arguments Throw {A} e.

Definition M (A : Type) : Type := Ctx -> completion A * Ctx * list event.

Definition ret {A} (a : A) : M A := fun s => (Normal a, s, []).

Definition bind {A B} (m : M A) (k : A -> M B) : M B :=
  fun s =>
    match m s with
    | (Normal a, s', l) =>
        match k a s' with
        | (r, s'', l') => (r, s'', l ++ l')
        end
    | (Throw e, s', l) => (Throw e, s', l)
    end.

Definition throw {A} (e : Js.Error) : M A := fun s => (Throw e, s, []).

Definition emit (ev : event) : M unit := fun s => (Normal tt, s, [ev]).

Definition get_client : M (option Kusto.Client) :=
  fun s => (Normal (client s), s, []).

Definition set_client (c : option Kusto.Client) : M unit :=
  fun s => (Normal tt, {| process_env := process_env s; client := c |}, []).

Definition get_env : M (gmap string string) :=
  fun s => (Normal (process_env s), s, []).

Definition set_env (e : gmap string string) : M unit :=
  fun s => (Normal tt, {| process_env := e; client := client s |}, []).

(** [try { m } catch (err) { h err }] *)
Definition try_catch {A} (m : M A) (h : Js.Error -> M A) : M A :=
  fun s =>
    match m s with
    | (Throw e, s', l) =>
        match h e s' with
        | (r, s'', l') => (r, s'', l ++ l')
        end
    | done => done
    end.

(** [await client.execute(db, query)] *)
Definition execute (c : Kusto.Client) (db query : string)
  : M Kusto.KustoResponseDataSet :=
  fun s =>
    (match Kusto.execute c db query with
     | inl e => Throw e
     | inr resp => Normal resp
     end, s, [KustoExecute db query]).

(** [response.primaryResults[0].toString()]: index 0 of an empty array is
    [undefined], and reading a property of it raises a [TypeError]. *)
Definition first_toString (response : Kusto.KustoResponseDataSet)
  : M string :=
  match Kusto.primaryResults response !! 0%nat with
  | Some t => ret (Kusto.toString t)
  | None =>
      throw (Js.TypeError
               "Cannot read properties of undefined (reading 'toString')")
  end.

Definition result_of {A} (x : completion A * Ctx * list event)
  : completion A := fst (fst x).
Definition ctx_of {A} (x : completion A * Ctx * list event) : Ctx :=
  snd (fst x).
Definition trace_of {A} (x : completion A * Ctx * list event)
  : list event := snd x.

End Eff.

Import Eff.

Notation "'let*' x ':=' m 'in' k" := (Eff.bind m (fun x => k))
  (at level 10, x name, m at level 100, k at level 200, only parsing).
Notation "m '>>' k" := (Eff.bind m (fun _ => k))
  (at level 65, right associativity, only parsing).

(** ** Protocol payloads *)

Module Mcp.

(** One entry of [contents] in a resource read result. *)
Record ResourceContents : Type :=
  { uri : string;
    name : option string;
    mimeType : option string;
    text : string }.

Record ReadResourceResult : Type :=
  { contents : list ResourceContents }.

Record ToolContent : Type := { type : string; tool_text : string }.

(** A tool result; [isError] is absent ([None]) unless the handler sets
    it. *)
Record CallToolResult : Type :=
  { tool_contents : list ToolContent;
    isError : option bool }.

(** The variables a resource template binds in an address. *)
Record ResourceTemplateSchema : Type :=
  { db : string; table : option string }.

Record QueryToolSchema : Type := { q_db : string; q_query : string }.

(** Entries of the two listing results. *)
Record Resource : Type :=
  { r_uri : string; r_name : string; r_description : string }.

Record ResourceTemplate : Type :=
  { uriTemplate : string; t_name : string; t_description : string }.

(** The request schemas the low-level server registers handlers for, and
    the method literal each stands for. *)
Inductive RequestSchema : Type :=
| ListResourcesRequestSchema
| ListResourceTemplatesRequestSchema
| ReadResourceRequestSchema.

Definition method_literal (schema : RequestSchema) : string :=
  match schema with
  | ListResourcesRequestSchema => "resources/list"
  | ListResourceTemplatesRequestSchema => "resources/templates/list"
  | ReadResourceRequestSchema => "resources/read"
  end.

Inductive Request : Type :=
| ListResourcesRequest
| ListResourceTemplatesRequest
| ReadResourceRequest (params_uri : string)
| PingRequest
| InitializeRequest.

Definition method (request : Request) : string :=
  match request with
  | ListResourcesRequest => "resources/list"
  | ListResourceTemplatesRequest => "resources/templates/list"
  | ReadResourceRequest _ => "resources/read"
  | PingRequest => "ping"
  | InitializeRequest => "initialize"
  end.

(** What a request handler hands back; [Undefined] is a handler body that
    ends without [return]. *)
Inductive Response : Type :=
| ListResourcesResult (resources : list Resource)
| ListResourceTemplatesResult (resourceTemplates : list ResourceTemplate)
| ReadResult (result : ReadResourceResult)
| Undefined
| EmptyResult
| InitializeResult (serverName serverVersion : string).

(** The text of the entry of a read result that carries the address [u]. *)
Definition field_text (u : string) (r : ReadResourceResult) : option string :=
  text <$> List.find (fun c => String.eqb (uri c) u) (contents r).

End Mcp.

(** ** The request boundary of the protocol library

    The handlers of the repository are never called directly: the protocol
    library, which is outside the repository, runs them and answers the
    caller. Only the part the handlers rely on is rendered: what becomes of
    the value a handler returns and of the error it throws. *)

Module Protocol.

(** What the caller receives for a request. *)
Inductive Reply (A : Type) : Type :=
| Result (result : A)
| ErrorReply (code : Z) (message : string).
Arguments Result {A} result.
Arguments ErrorReply {A} code message.

(** The code of an error reply made from a thrown value without a numeric
    code of its own. *)
Definition InternalError : Z := (-32603)%Z.

(** A request handler runs inside a promise chain: the value it returns is
    sent as the result, and an error it throws is sent as an error reply
    with the message of the error ([Internal error] when it has none).
    Nothing is thrown further. *)
Definition onrequest {A} (handler : M A) : M (Reply A) :=
  fun s =>
    match handler s with
    | (Normal a, s', l) => (Normal (Result a), s', l)
    | (Throw e, s', l) =>
        (Normal (ErrorReply InternalError
                   (default "Internal error" (Js.message e))), s', l)
    end.

(** The result the high-level server makes of an error thrown by a tool
    callback: the message of an error object, or [String(value)], flagged
    as an error. *)
Definition tool_error (e : Js.Error) : Mcp.CallToolResult :=
  {| Mcp.tool_contents :=
       [ {| Mcp.type := "text";
            Mcp.tool_text :=
              match e with
              | Js.PlainError m => m
              | Js.TypeError m => m
              | Js.Thrown t => t
              end |} ];
     Mcp.isError := Some true |}.

(** [tools/call] in the high-level server, once the tool is found and its
    arguments are parsed: the callback runs inside [try]/[catch], and the
    request handler that does so runs like any other. *)
Definition call_tool (callback : M Mcp.CallToolResult)
  : M (Reply Mcp.CallToolResult) :=
  onrequest (try_catch callback (fun e => ret (tool_error e))).

End Protocol.

(** ** Start-up and shutdown, shared by the variants *)

Module Lifecycle.

(** [z.string().min(1, message)] on one key of the parsed object. *)
Definition min1 (env : gmap string string) (key message : string)
  : list ZodIssue :=
  match env !! key with
  | None => [Required key]
  | Some v => if Js.truthy v then [] else [TooSmall key message]
  end.

Record EnvData : Type :=
  { ADX_CLUSTER_NAME : string;
    ADX_CLIENT_ID : string;
    ADX_CLIENT_SECRET : string;
    ADX_TENANT_ID : string }.

(** [envSchema.safeParse(process.env)]: every key is checked and all the
    issues are reported together. *)
Definition safeParse (env : gmap string string) : list ZodIssue + EnvData :=
  let issues :=
    min1 env "ADX_CLUSTER_NAME" "Cluster name is required"
    ++ min1 env "ADX_CLIENT_ID" "Client ID is required"
    ++ min1 env "ADX_CLIENT_SECRET" "Client secret is required"
    ++ min1 env "ADX_TENANT_ID" "Tenant ID is required" in
  match issues, env !! "ADX_CLUSTER_NAME", env !! "ADX_CLIENT_ID",
        env !! "ADX_CLIENT_SECRET", env !! "ADX_TENANT_ID" with
  | [], Some clusterName, Some clientId, Some clientSecret, Some tenantId =>
      inr {| ADX_CLUSTER_NAME := clusterName;
             ADX_CLIENT_ID := clientId;
             ADX_CLIENT_SECRET := clientSecret;
             ADX_TENANT_ID := tenantId |}
  | _, _, _, _, _ => inl issues
  end.

(** [config()] of [dotenv]: the keys of the [.env] file are added to
    [process.env]; a key that is already set keeps its value. *)
Definition config (dotenv : gmap string string) : M unit :=
  let* env := get_env in
  set_env (env ∪ dotenv).

(** The body of [connect] after the optional [config()]. *)
Definition connect_from_env (remote : Kusto.Cluster) : M unit :=
  let* env := get_env in
  match safeParse env with
  | inr data =>
      match
        Kusto.withAadApplicationKeyAuthentication remote
          ("https://" +:+ ADX_CLUSTER_NAME data +:+ ".kusto.windows.net")
          (ADX_CLIENT_ID data) (ADX_CLIENT_SECRET data)
          (ADX_TENANT_ID data)
      with
      | inl e => throw e
      | inr kcsb =>
          match Kusto.new_Client remote kcsb with
          | inl e => throw e
          | inr c => set_client (Some c)
          end
      end
  | inl issues =>
      emit (ConsoleError "Environment variable validation failed:"
              (LoggedIssues issues))
  end.

Definition disconnect : M unit :=
  let* c := get_client in
  match c with
  | Some _ => emit KustoClose >> set_client None
  | None => ret tt
  end.

(** [start()]: the transport is attached; [transport] is what attaching
    does, an error or nothing. *)
Definition start (transport : Js.Error + unit) : M unit :=
  match transport with
  | inl e => throw e
  | inr _ => ret tt
  end.

(** The entry file: a rejected [createServer()] is logged and ends the
    process with status 1. *)
Definition main {A} (createServer : M A) : M unit :=
  try_catch (createServer >> ret tt)
    (fun err =>
       emit (ConsoleError "Error starting ADX MCP server:" (LoggedError err))
       >> emit (ProcessExit 1)).

(** The variables [connect] requires. *)
Definition required : list string :=
  [ "ADX_CLUSTER_NAME"; "ADX_CLIENT_ID"; "ADX_CLIENT_SECRET";
    "ADX_TENANT_ID" ].

(** Some issue of [issues] is about [key]. *)
Definition min1_issue_for (key : string) (issues : list ZodIssue) : Prop :=
  In (Required key) issues \/ exists message, In (TooSmall key message) issues.

(** The context of a fresh process: [client] is initialised to [null]. *)
Definition fresh (env : gmap string string) : Ctx :=
  {| process_env := env; client := None |}.

End Lifecycle.

(** ** Variant 1: local store, configuration shown as it is

    Of this variant only the configuration resource and the life-cycle
    methods are rendered; its schema resource and query tool work on a
    SQLite file and are left out. *)

Module LocalStore.

(** Handler registered by [registerConfigResource]. *)
Definition config_handler (_ : string) : M Mcp.ReadResourceResult :=
  let* env := get_env in
  ret {| Mcp.contents :=
           [ {| Mcp.uri := "config://azure-data-explorer-creds/cluster-name";
                Mcp.name := Some "Cluster Name";
                Mcp.mimeType := None;
                Mcp.text := Js.interpolate (env !! "ADX_CLUSTER_NAME") |};
             {| Mcp.uri := "config://azure-data-explorer-creds/client-id";
                Mcp.name := Some "Client ID";
                Mcp.mimeType := None;
                Mcp.text := Js.interpolate (env !! "ADX_CLIENT_ID") |};
             {| Mcp.uri := "config://azure-data-explorer-creds/client-secret";
                Mcp.name := Some "Client Secret";
                Mcp.mimeType := None;
                Mcp.text := Js.interpolate (env !! "ADX_CLIENT_SECRET") |};
             {| Mcp.uri := "config://azure-data-explorer-creds/tenant-id";
                Mcp.name := Some "Tenant ID";
                Mcp.mimeType := None;
                Mcp.text := Js.interpolate (env !! "ADX_TENANT_ID") |} ] |}.

Definition connect (remote : Kusto.Cluster) : M unit :=
  Lifecycle.connect_from_env remote.

Definition disconnect : M unit := Lifecycle.disconnect.

End LocalStore.

(** ** Variant 2: resource templates and the remote query tool *)

Module Templated.

(** An address pattern given to [server.resource]. *)
Inductive Pattern : Type :=
| Fixed (uri : string)
| Template (uriTemplate : string).

(** What [server.resource] and [server.tool] record. The callback of a
    fixed resource ignores the template variables. *)
Inductive Registration : Type :=
| Resource (name : string) (pattern : Pattern)
    (read : string -> Mcp.ResourceTemplateSchema ->
            M (option Mcp.ReadResourceResult))
| Tool (name : string) (call : Mcp.QueryToolSchema -> M Mcp.CallToolResult).

Record AdxMcpServer : Type := { server : list Registration }.

(** [new AdxMcpServer()] *)
Definition constructor : AdxMcpServer := {| server := [] |}.

Definition resource (name : string) (pattern : Pattern)
    (read : string -> Mcp.ResourceTemplateSchema ->
            M (option Mcp.ReadResourceResult))
    (this : AdxMcpServer) : AdxMcpServer :=
  {| server := server this ++ [Resource name pattern read] |}.

Definition tool (name : string)
    (call : Mcp.QueryToolSchema -> M Mcp.CallToolResult)
    (this : AdxMcpServer) : AdxMcpServer :=
  {| server := server this ++ [Tool name call] |}.

Definition not_initialized : Js.Error :=
  Js.PlainError "Client is not initialized".

(** Callback of the template [schema://adx/{db}]. *)
Definition schema_of_the_db (href : string) (data : Mcp.ResourceTemplateSchema)
  : M (option Mcp.ReadResourceResult) :=
  let* client := get_client in
  match client with
  | None => throw not_initialized
  | Some c =>
      if negb (Js.truthy_opt (Mcp.table data)) then
        let query := ".show tables" in
        let* response := execute c (Mcp.db data) query in
        let* result := first_toString response in
        ret (Some
               {| Mcp.contents :=
                    [ {| Mcp.uri := href;
                         Mcp.name :=
                           Some ("List down all tables in the db "
                                 +:+ Mcp.db data);
                         Mcp.mimeType := Some "text/plain";
                         Mcp.text := result |} ] |})
      else ret None
  end.

(** Callback of the template [schema://adx/{db}/{table}]. *)
Definition schema_of_the_table (href : string)
    (data : Mcp.ResourceTemplateSchema)
  : M (option Mcp.ReadResourceResult) :=
  let* client := get_client in
  match client with
  | None => throw not_initialized
  | Some c =>
      if Js.truthy_opt (Mcp.table data) then
        let query := Js.interpolate (Mcp.table data) +:+ " | getschema" in
        let* response := execute c (Mcp.db data) query in
        let* result := first_toString response in
        ret (Some
               {| Mcp.contents :=
                    [ {| Mcp.uri := href;
                         Mcp.name :=
                           Some ("Schema of the table "
                                 +:+ Js.interpolate (Mcp.table data));
                         Mcp.mimeType := Some "text/plain";
                         Mcp.text := result |} ] |})
      else ret None
  end.

(** Callback of the template [functions://adx/{db}/functions]. *)
Definition functions_of_the_db (href : string)
    (data : Mcp.ResourceTemplateSchema)
  : M (option Mcp.ReadResourceResult) :=
  let* client := get_client in
  match client with
  | None => throw not_initialized
  | Some c =>
      let query := ".show functions" in
      let* response := execute c (Mcp.db data) query in
      let* result := first_toString response in
      ret (Some
             {| Mcp.contents :=
                  [ {| Mcp.uri := href;
                       Mcp.name :=
                         Some ("List down all functions in the db "
                               +:+ Mcp.db data);
                       Mcp.mimeType := Some "text/plain";
                       Mcp.text := result |} ] |})
  end.

Definition registerSchemaResourceTemplate (this : AdxMcpServer)
  : AdxMcpServer :=
  resource "Functions of the db" (Template "functions://adx/{db}/functions")
    functions_of_the_db
    (resource "Schema of the table" (Template "schema://adx/{db}/{table}")
       schema_of_the_table
       (resource "Schema of the db" (Template "schema://adx/{db}")
          schema_of_the_db this)).

(** The text shown for the client secret. *)
Definition secret_text (env : gmap string string) : string :=
  if Js.truthy_opt (env !! "ADX_CLIENT_SECRET") then "******" else "Not set".

(** Callback of the fixed resource [config://azure-data-explorer-creds]. *)
Definition config_handler (_ : string)
  : M (option Mcp.ReadResourceResult) :=
  let* env := get_env in
  ret (Some
         {| Mcp.contents :=
              [ {| Mcp.uri := "config://azure-data-explorer-creds/cluster-name";
                   Mcp.name := Some "Cluster Name";
                   Mcp.mimeType := None;
                   Mcp.text := Js.interpolate (env !! "ADX_CLUSTER_NAME") |};
                {| Mcp.uri := "config://azure-data-explorer-creds/client-id";
                   Mcp.name := Some "Client ID";
                   Mcp.mimeType := None;
                   Mcp.text := Js.interpolate (env !! "ADX_CLIENT_ID") |};
                {| Mcp.uri :=
                     "config://azure-data-explorer-creds/client-secret";
                   Mcp.name := Some "Client Secret";
                   Mcp.mimeType := None;
                   Mcp.text := secret_text env |};
                {| Mcp.uri := "config://azure-data-explorer-creds/tenant-id";
                   Mcp.name := Some "Tenant ID";
                   Mcp.mimeType := None;
                   Mcp.text := Js.interpolate (env !! "ADX_TENANT_ID") |} ] |}).

Definition registerConfigResource (this : AdxMcpServer) : AdxMcpServer :=
  resource "config" (Fixed "config://azure-data-explorer-creds")
    (fun href _ => config_handler href) this.

(** Callback of the tool [query]. *)
Definition query_handler (data : Mcp.QueryToolSchema)
  : M Mcp.CallToolResult :=
  let* client := get_client in
  match client with
  | None => throw not_initialized
  | Some c =>
      let query := Mcp.q_query data in
      let db := Mcp.q_db data in
      let* response := execute c db query in
      let* result := first_toString response in
      ret {| Mcp.tool_contents :=
               [ {| Mcp.type := "text"; Mcp.tool_text := result |} ];
             Mcp.isError := None |}
  end.

Definition registerQueryTool (this : AdxMcpServer) : AdxMcpServer :=
  tool "query" query_handler this.

Definition initialize (this : AdxMcpServer) : AdxMcpServer :=
  registerQueryTool (registerConfigResource
                       (registerSchemaResourceTemplate this)).

Definition connect (remote : Kusto.Cluster) (dotenv : gmap string string)
  : M unit :=
  Lifecycle.config dotenv >> Lifecycle.connect_from_env remote.

Definition disconnect : M unit := Lifecycle.disconnect.

(** [createServer]: registration, then serving, then the connection. The
    server object is handed back so that its registrations can be read. *)
Definition createServer (transport : Js.Error + unit)
    (remote : Kusto.Cluster) (dotenv : gmap string string)
  : M AdxMcpServer :=
  let this := initialize constructor in
  Lifecycle.start transport >> connect remote dotenv >> ret this.

End Templated.

(** ** Variant 3: request handlers registered by hand *)

Module LowLevel.

Abbreviation Handler := (Mcp.Request -> M Mcp.Response).

(** The low-level server keeps one handler per method literal. *)
Record AdxMcpServer : Type := { server : gmap string Handler }.

(** [new AdxMcpServer()]: the class builds a [Server], whose own
    constructor (in the protocol library) already registers a handler for
    [ping], answering with an empty result, and one for [initialize],
    answering with the name and version the class passes in. *)
Definition constructor : AdxMcpServer :=
  {| server :=
       <["initialize" :=
           fun _ => ret (Mcp.InitializeResult "Azure Data Explorer" "1.0.0")]>
         (<["ping" := fun _ => ret Mcp.EmptyResult]> ∅) |}.

(** [server.setRequestHandler(schema, handler)] stores the handler under
    the method literal of the schema, as a [Map.set] does: a handler
    already stored under that literal is dropped. *)
Definition setRequestHandler (schema : Mcp.RequestSchema) (handler : Handler)
    (this : AdxMcpServer) : AdxMcpServer :=
  {| server := <[Mcp.method_literal schema := handler]> (server this) |}.

(** A handler for read requests. The protocol layer parses a request
    against the schema before it calls the handler, so only read requests
    reach it. *)
Definition on_read (f : string -> M Mcp.Response) : Handler :=
  fun request =>
    match request with
    | Mcp.ReadResourceRequest uri => f uri
    | _ => ret Mcp.Undefined
    end.

(** The protocol layer looks the handler up by the method of the request;
    [None] stands for its own method-not-found reply. *)
Definition dispatch (this : AdxMcpServer) (request : Mcp.Request)
  : M (option Mcp.Response) :=
  match server this !! Mcp.method request with
  | Some handler => let* r := handler request in ret (Some r)
  | None => ret None
  end.

Definition list_resources : Handler :=
  fun _ =>
    ret (Mcp.ListResourcesResult
           [ {| Mcp.r_uri := "config://azure-data-explorer-creds";
                Mcp.r_name := "Config";
                Mcp.r_description := "Config of the Azure Data Explorer" |} ]).

(** The text shown for the client secret. *)
Definition secret_text (env : gmap string string) : string :=
  if Js.truthy_opt (env !! "ADX_CLIENT_SECRET") then "******" else "Not set".

Definition config_contents (env : gmap string string)
  : list Mcp.ResourceContents :=
  [ {| Mcp.uri := "config://azure-data-explorer-creds/cluster-name";
       Mcp.name := Some "Cluster Name";
       Mcp.mimeType := None;
       Mcp.text := Js.interpolate (env !! "ADX_CLUSTER_NAME") |};
    {| Mcp.uri := "config://azure-data-explorer-creds/client-id";
       Mcp.name := Some "Client ID";
       Mcp.mimeType := None;
       Mcp.text := Js.interpolate (env !! "ADX_CLIENT_ID") |};
    {| Mcp.uri := "config://azure-data-explorer-creds/client-secret";
       Mcp.name := Some "Client Secret";
       Mcp.mimeType := None;
       Mcp.text := secret_text env |};
    {| Mcp.uri := "config://azure-data-explorer-creds/tenant-id";
       Mcp.name := Some "Tenant ID";
       Mcp.mimeType := None;
       Mcp.text := Js.interpolate (env !! "ADX_TENANT_ID") |} ].

(** Read handler registered by [registerResources]. *)
Definition read_config (uri : string) : M Mcp.Response :=
  if Js.startsWith uri "config://azure-data-explorer-creds" then
    let* env := get_env in
    ret (Mcp.ReadResult {| Mcp.contents := config_contents env |})
  else ret Mcp.Undefined.

Definition registerResources (this : AdxMcpServer) : AdxMcpServer :=
  setRequestHandler Mcp.ReadResourceRequestSchema (on_read read_config)
    (setRequestHandler Mcp.ListResourcesRequestSchema list_resources this).

Definition list_resource_templates : Handler :=
  fun _ =>
    ret (Mcp.ListResourceTemplatesResult
           [ {| Mcp.uriTemplate := "schema://adx/{db}";
                Mcp.t_name := "Schema of the db";
                Mcp.t_description := "List down the tables in the given db" |};
             {| Mcp.uriTemplate := "schema://adx/{db}/{table}";
                Mcp.t_name := "Schema of the table";
                Mcp.t_description := "Schema of the given db and table" |};
             {| Mcp.uriTemplate := "schema://adx/{db}/functions";
                Mcp.t_name := "Functions of the db";
                Mcp.t_description := "List all functions of the given db" |} ]).

(** [/schema:\/\/adx\/\w+$/] *)
Definition showTablesRegex : Regex.regex :=
  Regex.Cat (Regex.lits "schema://adx/") (Regex.Plus Regex.WordChar).

(** [/schema:\/\/adx\/\w+\/\w+$/] *)
Definition showTableSchemaRegex : Regex.regex :=
  Regex.Cat (Regex.lits "schema://adx/")
    (Regex.Cat (Regex.Plus Regex.WordChar)
       (Regex.Cat (Regex.Lit "/") (Regex.Plus Regex.WordChar))).

(** [/schema:\/\/adx\/\w+\/functions$/] *)
Definition showFunctionsRegex : Regex.regex :=
  Regex.Cat (Regex.lits "schema://adx/")
    (Regex.Cat (Regex.Plus Regex.WordChar) (Regex.lits "/functions")).

Definition not_initialized : Js.Error :=
  Js.PlainError "Database client is not initialized".

Definition invalid_uri (uri : string) : Mcp.Response :=
  Mcp.ReadResult
    {| Mcp.contents :=
         [ {| Mcp.uri := uri;
              Mcp.name := Some "Error";
              Mcp.mimeType := Some "text/plain";
              Mcp.text := "Invalid URI" |} ] |}.

Definition text_result (uri name result : string) : Mcp.Response :=
  Mcp.ReadResult
    {| Mcp.contents :=
         [ {| Mcp.uri := uri;
              Mcp.name := Some name;
              Mcp.mimeType := Some "text/plain";
              Mcp.text := result |} ] |}.

(** The proper non-empty suffixes of the prefix [schema://adx/]: the start
    offsets inside the prefix that a search also tries. *)
Definition inner_offsets : list string :=
  [ "chema://adx/"; "hema://adx/"; "ema://adx/"; "ma://adx/"; "a://adx/";
    "://adx/"; "//adx/"; "/adx/"; "adx/"; "dx/"; "x/"; "/" ].

(** [uri.split("/")[i]] *)
Definition segment (uri : string) (i : nat) : option string :=
  Js.split "/" uri !! i.

(** Read handler registered by [registerResourceTemplates]. In the last
    branch the query is sent before [db] is inspected; an [undefined]
    [db] is passed on there as the empty string. *)
Definition read_template (uri : string) : M Mcp.Response :=
  if Regex.test_to_end showTablesRegex uri then
    let db := segment uri 3 in
    let* client := get_client in
    match client with
    | None => throw not_initialized
    | Some c =>
        match db with
        | Some (String _ _ as db) =>
            let query := ".show tables" in
            let* response := execute c db query in
            let* result := first_toString response in
            ret (text_result uri ("Schema of the db " +:+ db) result)
        | _ => ret (invalid_uri uri)
        end
    end
  else if Regex.test_to_end showTableSchemaRegex uri then
    let db := segment uri 3 in
    let table := segment uri 4 in
    let* client := get_client in
    match client with
    | None => throw not_initialized
    | Some c =>
        match db, table with
        | Some (String _ _ as db), Some (String _ _ as table) =>
            let query := table +:+ " | getschema" in
            let* response := execute c db query in
            let* result := first_toString response in
            ret (text_result uri ("Schema of the table " +:+ table) result)
        | _, _ => ret (invalid_uri uri)
        end
    end
  else if Regex.test_to_end showFunctionsRegex uri then
    let db := segment uri 3 in
    let* client := get_client in
    match client with
    | None => throw not_initialized
    | Some c =>
        let query := ".show functions" in
        let* response := execute c (default "" db) query in
        let* result := first_toString response in
        match db with
        | Some (String _ _ as db) =>
            ret (text_result uri ("Functions of the db " +:+ db) result)
        | _ => ret (invalid_uri uri)
        end
    end
  else ret Mcp.Undefined.

Definition registerResourceTemplates (this : AdxMcpServer) : AdxMcpServer :=
  setRequestHandler Mcp.ReadResourceRequestSchema (on_read read_template)
    (setRequestHandler Mcp.ListResourceTemplatesRequestSchema
       list_resource_templates this).

(** The body of [registerQueryTool] is commented out in this variant. *)
Definition registerQueryTool (this : AdxMcpServer) : AdxMcpServer := this.

Definition initialize (this : AdxMcpServer) : AdxMcpServer :=
  registerQueryTool (registerResourceTemplates (registerResources this)).

Definition connect (remote : Kusto.Cluster) (dotenv : gmap string string)
  : M unit :=
  Lifecycle.config dotenv >> Lifecycle.connect_from_env remote.

Definition disconnect : M unit := Lifecycle.disconnect.

(** [createServer]: registration, then serving, then the connection. The
    server object is handed back so that its registrations can be read. *)
Definition createServer (transport : Js.Error + unit)
    (remote : Kusto.Cluster) (dotenv : gmap string string)
  : M AdxMcpServer :=
  let this := initialize constructor in
  Lifecycle.start transport >> connect remote dotenv >> ret this.

End LowLevel.

(** ** Concrete collaborators used in examples *)

Module Fixtures.

Definition one_table (rendering : string) : Kusto.KustoResponseDataSet :=
  {| Kusto.primaryResults := [ {| Kusto.toString := rendering |} ] |}.

(** A library that accepts whatever it is given and keeps the four values
    as they are. *)
Definition plain_builder (connectionString aadAppId appKey authorityId : string)
  : Js.Error + Kusto.KustoConnectionStringBuilder :=
  inr {| Kusto.dataSource := connectionString;
         Kusto.applicationClientId := aadAppId;
         Kusto.applicationKey := appKey;
         Kusto.authorityId := authorityId |}.

(** A cluster that answers every query with one table whose rendering
    names the database and the query. *)
Definition echo_cluster : Kusto.Cluster :=
  {| Kusto.builder := plain_builder;
     Kusto.constructor_error := fun _ => None;
     Kusto.answer :=
       fun _ db query => inr (one_table (db +:+ " <- " +:+ query)) |}.

(** A cluster on which every query raises. *)
Definition failing_cluster : Kusto.Cluster :=
  {| Kusto.builder := plain_builder;
     Kusto.constructor_error := fun _ => None;
     Kusto.answer := fun _ _ _ => inl (Js.PlainError "Request failed") |}.

(** A cluster that answers without any result table. *)
Definition empty_cluster : Kusto.Cluster :=
  {| Kusto.builder := plain_builder;
     Kusto.constructor_error := fun _ => None;
     Kusto.answer := fun _ _ _ => inr {| Kusto.primaryResults := [] |} |}.

(** Made of spaces only. *)
Fixpoint blank (s : string) : bool :=
  match s with
  | EmptyString => true
  | String c s' => Ascii.eqb c " " && blank s'
  end.

(** A library whose builder refuses an application id made of spaces, as
    the real one does. *)
Definition strict_cluster : Kusto.Cluster :=
  {| Kusto.builder :=
       fun connectionString aadAppId appKey authorityId =>
         if blank aadAppId then inl (Js.PlainError "Invalid app id")
         else plain_builder connectionString aadAppId appKey authorityId;
     Kusto.constructor_error := fun _ => None;
     Kusto.answer :=
       fun _ db query => inr (one_table (db +:+ " <- " +:+ query)) |}.

Definition sample_kcsb : Kusto.KustoConnectionStringBuilder :=
  {| Kusto.dataSource := "https://help.kusto.windows.net";
     Kusto.applicationClientId := "app-id";
     Kusto.applicationKey := "app-key";
     Kusto.authorityId := "tenant" |}.

Definition echo_client : Kusto.Client :=
  {| Kusto.kcsb := sample_kcsb;
     Kusto.execute := Kusto.answer echo_cluster sample_kcsb |}.

Definition failing_client : Kusto.Client :=
  {| Kusto.kcsb := sample_kcsb;
     Kusto.execute := Kusto.answer failing_cluster sample_kcsb |}.

Definition empty_client : Kusto.Client :=
  {| Kusto.kcsb := sample_kcsb;
     Kusto.execute := Kusto.answer empty_cluster sample_kcsb |}.

(** The context of a process whose client handle is set. *)
Definition connected (env : gmap string string) (c : Kusto.Client) : Ctx :=
  {| process_env := env; client := Some c |}.

(** An environment with the four required variables. *)
Definition full_env : gmap string string :=
  <["ADX_CLUSTER_NAME" := "help"]>
    (<["ADX_CLIENT_ID" := "app-id"]>
       (<["ADX_CLIENT_SECRET" := "s3cret"]>
          (<["ADX_TENANT_ID" := "tenant"]> ∅))).

End Fixtures.

(** ** Observations used by the further properties *)

Module Observe.

(** The last character of a string, if it has one. *)
Fixpoint last_char (s : string) : option ascii :=
  match s with
  | EmptyString => None
  | String c EmptyString => Some c
  | String _ s' => last_char s'
  end.

(** The required variables that are unset or empty in [env], in the order
    of the schema. *)
Definition unusable (env : gmap string string) : list string :=
  List.filter (fun key => negb (Js.truthy_opt (env !! key)))
    Lifecycle.required.

(** The variable an issue is about. *)
Definition issue_path (i : ZodIssue) : string :=
  match i with
  | Required path => path
  | TooSmall path _ => path
  end.

(** The client the library hands over for the four values, or the error
    its builder or its constructor throws: the two library calls of
    [connect], in order. *)
Definition client_for (remote : Kusto.Cluster)
    (clusterName clientId clientSecret tenantId : string)
  : Js.Error + Kusto.Client :=
  match
    Kusto.withAadApplicationKeyAuthentication remote
      ("https://" +:+ clusterName +:+ ".kusto.windows.net")
      clientId clientSecret tenantId
  with
  | inl e => inl e
  | inr kcsb => Kusto.new_Client remote kcsb
  end.

(** The issues [safeParse] reports, whatever it answers. *)
Definition all_issues (env : gmap string string) : list ZodIssue :=
  Lifecycle.min1 env "ADX_CLUSTER_NAME" "Cluster name is required"
  ++ Lifecycle.min1 env "ADX_CLIENT_ID" "Client ID is required"
  ++ Lifecycle.min1 env "ADX_CLIENT_SECRET" "Client secret is required"
  ++ Lifecycle.min1 env "ADX_TENANT_ID" "Tenant ID is required".

(** The remote calls of a trace. *)
Definition is_execute (ev : event) : bool :=
  match ev with
  | KustoExecute _ _ => true
  | _ => false
  end.

End Observe.

(** * Properties *)

(** ** Strings *)

Module StringFacts.

Lemma app_nil_l (s : string) : "" +:+ s = s.
Proof. reflexivity. Qed.

Lemma app_cons (c : ascii) (s t : string) :
  String c s +:+ t = String c (s +:+ t).
Proof. reflexivity. Qed.

Lemma app_nil_r (s : string) : s +:+ "" = s.
Proof.
  induction s as [|c s IH]; [reflexivity|].
  rewrite app_cons, IH. reflexivity.
Qed.

Lemma app_assoc (a b c : string) : (a +:+ b) +:+ c = a +:+ (b +:+ c).
Proof.
  induction a as [|x a IH]; [reflexivity|].
  rewrite !app_cons, IH. reflexivity.
Qed.

Lemma app_eq_nil (a b : string) : a +:+ b = "" -> a = "" /\ b = "".
Proof.
  destruct a as [|x a]; [intros H; rewrite app_nil_l in H; auto|].
  rewrite app_cons. discriminate.
Qed.

(** A concatenation that starts with [c]: either the left part is empty, or
    it starts with [c] itself. *)
Lemma app_eq_cons (a b : string) (c : ascii) (s : string) :
  a +:+ b = String c s ->
  (a = "" /\ b = String c s) \/ (exists a', a = String c a' /\ s = a' +:+ b).
Proof.
  destruct a as [|x a]; intros H.
  - left. rewrite app_nil_l in H. auto.
  - right. rewrite app_cons in H. injection H as -> <-. eauto.
Qed.

Lemma truthy_app_l (a b : string) :
  Js.truthy a = true -> Js.truthy (a +:+ b) = true.
Proof. destruct a; [discriminate|reflexivity]. Qed.

End StringFacts.

(** ** The pattern matcher agrees with the declarative reading *)

Module RegexFacts.

Import Regex StringFacts.

Lemma nullable_Matches (r : regex) : nullable r = true <-> Matches r "".
Proof.
  split.
  - induction r; simpl; intros H; try discriminate.
    + constructor.
    + apply andb_true_iff in H as [H1 H2].
      change "" with ("" +:+ ""). constructor; auto.
    + apply orb_true_iff in H as [H|H]; [apply MAltL|apply MAltR]; auto.
    + constructor.
  - intros H. remember "" as s eqn:E.
    induction H; simpl; try discriminate; auto.
    + apply app_eq_nil in E as [-> ->]. rewrite IHMatches1, IHMatches2; auto.
    + rewrite IHMatches; auto.
    + rewrite IHMatches; auto using orb_true_r.
Qed.

Lemma Matches_Void (s : string) : ~ Matches Void s.
Proof. intros H. inversion H. Qed.

Lemma deriv_sound (c : ascii) (r : regex) :
  forall s, Matches (deriv c r) s -> Matches r (String c s).
Proof.
  induction r; simpl; intros s H.
  - inversion H.
  - inversion H.
  - destruct (Ascii.eqb_spec c c0) as [<-|]; inversion H; subst. constructor.
  - destruct (is_word c) eqn:W; inversion H; subst. constructor; exact W.
  - destruct (nullable r1) eqn:N.
    + inversion H as [| | | | ? ? ? H1 | ? ? ? H2 | |]; subst.
      * inversion H1; subst. rewrite <- app_cons. constructor; auto.
      * rewrite <- (app_nil_l (String c s)). constructor; auto.
        apply nullable_Matches; exact N.
    + inversion H; subst. rewrite <- app_cons. constructor; auto.
  - inversion H; subst; [apply MAltL|apply MAltR]; auto.
  - inversion H; subst. rewrite <- app_cons. constructor; auto.
Qed.

Lemma deriv_complete (r : regex) (t : string) :
  Matches r t -> forall c s, t = String c s -> Matches (deriv c r) s.
Proof.
  induction 1 as [|d|d W|r1 r2 s1 s2 H1 IH1 H2 IH2|r1 r2 s0 H1 IH1
                  |r1 r2 s0 H2 IH2| |r1 s1 s2 H1 IH1 H2 IH2];
    intros c s E; simpl.
  - discriminate.
  - injection E as -> <-. rewrite Ascii.eqb_refl. constructor.
  - injection E as -> <-. rewrite W. constructor.
  - apply app_eq_cons in E as [[-> ->]|(a' & -> & ->)].
    + apply nullable_Matches in H1. rewrite H1. apply MAltR. eauto.
    + destruct (nullable r1); [apply MAltL|]; constructor; eauto.
  - apply MAltL; eauto.
  - apply MAltR; eauto.
  - discriminate.
  - apply app_eq_cons in E as [[-> ->]|(a' & -> & ->)].
    + exact (IH2 _ _ eq_refl).
    + constructor; eauto.
Qed.

Theorem matches_Matches (s : string) :
  forall r, matches r s = true <-> Matches r s.
Proof.
  induction s as [|c s IH]; intros r; simpl.
  - apply nullable_Matches.
  - rewrite IH. split; [apply deriv_sound|].
    intros H. exact (deriv_complete _ _ H _ _ eq_refl).
Qed.

(** A literal run accepts itself and nothing else. *)
Lemma Matches_lits (p s : string) : Matches (lits p) s <-> s = p.
Proof.
  split.
  - revert s. induction p as [|c p IH]; simpl; intros s H.
    + inversion H; reflexivity.
    + inversion H as [| | |? ? s1 s2 H1 H2| | | |]; subst.
      inversion H1; subst. rewrite app_cons, app_nil_l. f_equal; auto.
  - intros ->. induction p as [|c p IH]; simpl; [constructor|].
    change (String c p) with (String c "" +:+ p). constructor; auto.
    constructor.
Qed.

Lemma Matches_Cat (r1 r2 : regex) (s : string) :
  Matches (Cat r1 r2) s <->
  exists s1 s2, s = s1 +:+ s2 /\ Matches r1 s1 /\ Matches r2 s2.
Proof.
  split.
  - intros H. inversion H; subst; eauto.
  - intros (s1 & s2 & -> & H1 & H2). constructor; auto.
Qed.

Lemma Matches_star_word (s : string) :
  Matches (Star WordChar) s <-> all_word s = true.
Proof.
  split.
  - intros H. remember (Star WordChar) as r eqn:E.
    induction H; try discriminate; [reflexivity|].
    injection E as ->. specialize (IHMatches2 eq_refl).
    inversion H; subst. rewrite app_cons, app_nil_l. simpl.
    apply andb_true_iff; auto.
  - induction s as [|c s IH]; simpl; intros H; [constructor|].
    apply andb_true_iff in H as [W A].
    change (String c s) with (String c "" +:+ s).
    constructor; auto. constructor; exact W.
Qed.

(** [\w+] accepts exactly the identifiers. *)
Lemma Matches_plus_word (s : string) :
  Matches (Plus WordChar) s <-> identifier s = true.
Proof.
  unfold Plus, identifier. rewrite Matches_Cat. split.
  - intros (s1 & s2 & -> & H1 & H2). inversion H1; subst.
    apply Matches_star_word in H2. rewrite app_cons, app_nil_l. simpl.
    apply andb_true_iff; auto.
  - destruct s as [|c s]; simpl; [discriminate|]. intros H.
    apply andb_true_iff in H as [W A].
    exists (String c ""), s. repeat split.
    + constructor; exact W.
    + apply Matches_star_word; exact A.
Qed.

Lemma test_to_end_spec (r : regex) (s : string) :
  test_to_end r s = true <-> exists t, In t (suffixes s) /\ Matches r t.
Proof.
  unfold test_to_end. rewrite existsb_exists.
  split; intros (t & I & H); exists t; split; auto; apply matches_Matches; auto.
Qed.

End RegexFacts.

(** ** Addresses of the low-level variant: pattern tests and segments *)

Module AddressFacts.

Import Regex StringFacts RegexFacts.

Lemma lacks_app (c : ascii) (a b : string) :
  lacks c (a +:+ b) = lacks c a && lacks c b.
Proof.
  induction a as [|x a IH]; [reflexivity|].
  rewrite app_cons. simpl. rewrite IH, andb_assoc. reflexivity.
Qed.

Lemma all_word_app (a b : string) :
  all_word (a +:+ b) = all_word a && all_word b.
Proof.
  induction a as [|x a IH]; [reflexivity|].
  rewrite app_cons. simpl. rewrite IH, andb_assoc. reflexivity.
Qed.

(** A character outside [\w] does not occur in a run of [\w] characters. *)
Lemma all_word_lacks (d : ascii) (s : string) :
  is_word d = false -> all_word s = true -> lacks d s = true.
Proof.
  intros D. induction s as [|c s IH]; simpl; [reflexivity|].
  intros H. apply andb_true_iff in H as [W A]. rewrite (IH A), andb_true_r.
  destruct (Ascii.eqb_spec c d) as [->|]; [congruence|reflexivity].
Qed.

Lemma identifier_all_word (s : string) :
  identifier s = true -> all_word s = true.
Proof. unfold identifier. intros H. apply andb_true_iff in H as [_ A]; exact A. Qed.

Lemma identifier_truthy (s : string) :
  identifier s = true -> Js.truthy s = true.
Proof. unfold identifier. intros H. apply andb_true_iff in H as [T _]; exact T. Qed.

Lemma identifier_cons (s : string) :
  identifier s = true -> exists c s', s = String c s'.
Proof. destruct s; [discriminate|eauto]. Qed.

Lemma matches_plus_word (s : string) :
  matches (Plus WordChar) s = identifier s.
Proof.
  apply eq_true_iff_eq. rewrite matches_Matches. apply Matches_plus_word.
Qed.

(** *** [split] *)

Lemma split_no_sep (sep : ascii) (s : string) :
  lacks sep s = true -> Js.split sep s = [s].
Proof.
  induction s as [|c s IH]; simpl; [reflexivity|]. intros H.
  apply andb_true_iff in H as [N L]. apply negb_true_iff in N.
  rewrite N, (IH L). reflexivity.
Qed.

Lemma split_app_sep (sep : ascii) (a b : string) :
  lacks sep a = true ->
  Js.split sep (a +:+ String sep b) = a :: Js.split sep b.
Proof.
  induction a as [|c a IH]; intros H.
  - rewrite app_nil_l. simpl. rewrite Ascii.eqb_refl. reflexivity.
  - simpl in H. apply andb_true_iff in H as [N L]. apply negb_true_iff in N.
    rewrite app_cons. simpl. rewrite N, (IH L). reflexivity.
Qed.

(** The segments of an address under the prefix [schema://adx/]. *)
Lemma split_prefixed (rest : string) :
  Js.split "/" ("schema://adx/" +:+ rest)
  = "schema:" :: "" :: "adx" :: Js.split "/" rest.
Proof.
  change ("schema://adx/" +:+ rest)
    with ("schema:" +:+ String "/" ("" +:+ String "/"
            ("adx" +:+ String "/" rest))).
  rewrite !split_app_sep by reflexivity. reflexivity.
Qed.

Lemma segment_db (db : string) :
  identifier db = true ->
  LowLevel.segment ("schema://adx/" +:+ db) 3 = Some db.
Proof.
  intros I. unfold LowLevel.segment. rewrite split_prefixed.
  rewrite split_no_sep; [reflexivity|].
  apply all_word_lacks; [reflexivity|apply identifier_all_word; exact I].
Qed.

Lemma segments_db_table (db table : string) :
  identifier db = true -> identifier table = true ->
  let uri := "schema://adx/" +:+ db +:+ "/" +:+ table in
  LowLevel.segment uri 3 = Some db /\ LowLevel.segment uri 4 = Some table.
Proof.
  intros Id It uri. unfold uri, LowLevel.segment. rewrite split_prefixed.
  change ("/" +:+ table) with (String "/" table).
  rewrite split_app_sep, split_no_sep.
  - split; reflexivity.
  - apply all_word_lacks; [reflexivity|apply identifier_all_word; exact It].
  - apply all_word_lacks; [reflexivity|apply identifier_all_word; exact Id].
Qed.

(** *** Pattern tests on an address that starts with the prefix *)

Lemma matches_prefixed (p : string) (r : regex) (x : string) :
  matches (Cat (lits p) r) (p +:+ x) = matches r x.
Proof.
  apply eq_true_iff_eq. rewrite !matches_Matches, Matches_Cat. split.
  - intros (s1 & s2 & E & H1 & H2). apply Matches_lits in H1. subst s1.
    apply (inj (String.app p)) in E. subst. exact H2.
  - intros H. exists p, x. repeat split; auto. apply Matches_lits. reflexivity.
Qed.

(** A match of a prefixed pattern starts with the prefix. *)
Lemma matches_prefixed_inv (p : string) (r : regex) (s : string) :
  matches (Cat (lits p) r) s = true -> exists x, s = p +:+ x.
Proof.
  rewrite matches_Matches, Matches_Cat.
  intros (s1 & s2 & E & H1 & H2). apply Matches_lits in H1. subst. eauto.
Qed.

Lemma no_match_without_colon (r : regex) (s : string) :
  lacks ":" s = true -> matches (Cat (lits "schema://adx/") r) s = false.
Proof.
  intros L. apply not_true_is_false. intros H.
  apply matches_prefixed_inv in H as [x ->].
  rewrite lacks_app in L. discriminate L.
Qed.

Lemma no_match_in_tail (r : regex) (s : string) :
  lacks ":" s = true ->
  existsb (matches (Cat (lits "schema://adx/") r)) (suffixes s) = false.
Proof.
  induction s as [|c s IH]; intros L.
  - cbn [suffixes existsb].
    rewrite (no_match_without_colon r "") by reflexivity. reflexivity.
  - cbn [suffixes existsb].
    rewrite (no_match_without_colon r (String c s) L).
    simpl in L. apply andb_true_iff in L as [_ L]. exact (IH L).
Qed.

Lemma suffixes_prefixed (rest : string) :
  suffixes ("schema://adx/" +:+ rest)
  = ("schema://adx/" +:+ rest)
      :: map (fun p => p +:+ rest) LowLevel.inner_offsets ++ suffixes rest.
Proof. reflexivity. Qed.

Lemma no_match_at_inner_offset (r : regex) (rest p : string) :
  In p LowLevel.inner_offsets ->
  matches (Cat (lits "schema://adx/") r) (p +:+ rest) = false.
Proof.
  intros I. apply not_true_is_false. intros H.
  apply matches_prefixed_inv in H as [x E].
  unfold LowLevel.inner_offsets in I. simpl in I.
  repeat (destruct I as [<-|I]; [discriminate E|]). exact I.
Qed.

(** With no colon after the prefix, only offset 0 can match. *)
Theorem test_prefixed (r : regex) (rest : string) :
  lacks ":" rest = true ->
  test_to_end (Cat (lits "schema://adx/") r) ("schema://adx/" +:+ rest)
  = matches r rest.
Proof.
  intros L. unfold test_to_end. rewrite suffixes_prefixed.
  cbn [existsb]. rewrite existsb_app, (no_match_in_tail r rest L).
  rewrite matches_prefixed, orb_false_r.
  assert (existsb (matches (Cat (lits "schema://adx/") r))
            (map (fun p => p +:+ rest) LowLevel.inner_offsets) = false) as ->.
  { apply not_true_is_false. intros H.
    apply existsb_exists in H as (t & I & M).
    apply in_map_iff in I as (p & <- & I).
    rewrite (no_match_at_inner_offset r rest p I) in M. discriminate M. }
  apply orb_false_r.
Qed.

End AddressFacts.

(** ** Running a handler *)

Module EffFacts.

(** The sequence shared by every remote-dependent handler: send the query,
    render the first table, build the payload. One call is traced; the
    context is left as it was. *)
Lemma query_then_render {A} (c : Kusto.Client) (db query : string)
    (payload : string -> A) (ctx : Ctx) :
  (let* response := execute c db query in
   let* result := first_toString response in
   ret (payload result)) ctx
  = (match Kusto.execute c db query with
     | inl e => Throw e
     | inr response =>
         match Kusto.primaryResults response with
         | [] => Throw (Js.TypeError
                   "Cannot read properties of undefined (reading 'toString')")
         | t :: _ => Normal (payload (Kusto.toString t))
         end
     end, ctx, [KustoExecute db query]).
Proof.
  unfold bind, execute, first_toString, ret, throw.
  destruct (Kusto.execute c db query) as [e|response]; [reflexivity|].
  destruct (Kusto.primaryResults response) as [|t ts]; reflexivity.
Qed.

Lemma bind_get_client {A} (k : option Kusto.Client -> M A) (ctx : Ctx) :
  (let* client := get_client in k client) ctx = k (client ctx) ctx.
Proof.
  unfold bind, get_client. destruct (k (client ctx) ctx) as [[r s] l].
  reflexivity.
Qed.

End EffFacts.

(** ** Routing in the low-level variant *)

Module LowLevelFacts.

Import Regex StringFacts RegexFacts AddressFacts EffFacts Fixtures.

(** After [initialize] a read request reaches the handler of
    [registerResourceTemplates]. *)
Lemma read_handler_after_initialize :
  LowLevel.server (LowLevel.initialize LowLevel.constructor)
    !! "resources/read"
  = Some (LowLevel.on_read LowLevel.read_template).
Proof.
  unfold LowLevel.initialize, LowLevel.registerQueryTool,
    LowLevel.registerResourceTemplates, LowLevel.setRequestHandler.
  cbn [LowLevel.server Mcp.method_literal].
  apply lookup_insert_eq.
Qed.

Lemma dispatch_read (uri : string) (ctx : Ctx) :
  LowLevel.dispatch (LowLevel.initialize LowLevel.constructor)
    (Mcp.ReadResourceRequest uri) ctx
  = match LowLevel.read_template uri ctx with
    | (Normal r, s, l) => (Normal (Some r), s, l)
    | (Throw e, s, l) => (Throw e, s, l)
    end.
Proof.
  unfold LowLevel.dispatch. cbn [Mcp.method].
  rewrite read_handler_after_initialize.
  unfold bind, LowLevel.on_read, ret.
  destruct (LowLevel.read_template uri ctx) as [[[r|e] s] l];
    [rewrite List.app_nil_r|]; reflexivity.
Qed.

Lemma test_tables_db (db : string) :
  identifier db = true ->
  test_to_end LowLevel.showTablesRegex ("schema://adx/" +:+ db) = true.
Proof.
  intros I. unfold LowLevel.showTablesRegex.
  rewrite test_prefixed, matches_plus_word; [exact I|].
  apply all_word_lacks; [reflexivity|apply identifier_all_word; exact I].
Qed.

Lemma lacks_colon_db_table (db tail : string) :
  identifier db = true -> identifier tail = true ->
  lacks ":" (db +:+ "/" +:+ tail) = true.
Proof.
  intros Id It. rewrite !lacks_app.
  rewrite (all_word_lacks ":" db), (all_word_lacks ":" tail);
    auto using identifier_all_word.
Qed.

Lemma test_tables_db_table (db table : string) :
  identifier db = true -> identifier table = true ->
  test_to_end LowLevel.showTablesRegex
    ("schema://adx/" +:+ db +:+ "/" +:+ table) = false.
Proof.
  intros Id It. unfold LowLevel.showTablesRegex.
  rewrite test_prefixed by (apply lacks_colon_db_table; assumption).
  rewrite matches_plus_word. unfold identifier.
  rewrite !all_word_app. cbn [all_word].
  change (is_word "/") with false.
  destruct (Js.truthy _), (all_word db); reflexivity.
Qed.

Lemma test_table_schema_db_table (db table : string) :
  identifier db = true -> identifier table = true ->
  test_to_end LowLevel.showTableSchemaRegex
    ("schema://adx/" +:+ db +:+ "/" +:+ table) = true.
Proof.
  intros Id It. unfold LowLevel.showTableSchemaRegex.
  rewrite test_prefixed by (apply lacks_colon_db_table; assumption).
  apply matches_Matches. constructor; [apply Matches_plus_word; exact Id|].
  constructor; [constructor|apply Matches_plus_word; exact It].
Qed.

(** Every address the functions pattern accepts is accepted by the
    table-schema pattern, which is tested first. *)
Theorem functions_pattern_shadowed (uri : string) :
  test_to_end LowLevel.showFunctionsRegex uri = true ->
  test_to_end LowLevel.showTableSchemaRegex uri = true.
Proof.
  rewrite !test_to_end_spec. intros (t & I & H). exists t. split; [exact I|].
  unfold LowLevel.showFunctionsRegex in H.
  apply Matches_Cat in H as (s1 & s2 & -> & H1 & H2).
  apply Matches_Cat in H2 as (a & b & -> & Ha & Hb).
  apply Matches_lits in Hb. subst b.
  unfold LowLevel.showTableSchemaRegex.
  constructor; [exact H1|]. constructor; [exact Ha|].
  change "/functions" with (String "/" "" +:+ "functions").
  constructor; [constructor|]. apply Matches_plus_word. reflexivity.
Qed.

End LowLevelFacts.

(** ** What the low-level read handler does on well-formed addresses *)

Module ReadFacts.

Import Regex StringFacts RegexFacts AddressFacts EffFacts LowLevelFacts.
Import Fixtures.

(** How the query-and-render sequence completes. *)
Lemma rendered_first_table {A} (c : Kusto.Client) (db query : string)
    (payload : string -> A) (response : Kusto.KustoResponseDataSet)
    (t : Kusto.KustoResultTable) (ts : list Kusto.KustoResultTable) :
  Kusto.execute c db query = inr response ->
  Kusto.primaryResults response = t :: ts ->
  match Kusto.execute c db query with
  | inl e => Throw e
  | inr response =>
      match Kusto.primaryResults response with
      | [] => Throw (Js.TypeError
                "Cannot read properties of undefined (reading 'toString')")
      | t :: _ => Normal (payload (Kusto.toString t))
      end
  end = Normal (payload (Kusto.toString t)).
Proof. intros -> ->. reflexivity. Qed.

Lemma read_tables (env : gmap string string) (c : Kusto.Client)
    (db : string) :
  identifier db = true ->
  let uri := "schema://adx/" +:+ db in
  LowLevel.read_template uri (connected env c)
  = (match Kusto.execute c db ".show tables" with
     | inl e => Throw e
     | inr response =>
         match Kusto.primaryResults response with
         | [] => Throw (Js.TypeError
                   "Cannot read properties of undefined (reading 'toString')")
         | t :: _ =>
             Normal (LowLevel.text_result uri ("Schema of the db " +:+ db)
                       (Kusto.toString t))
         end
     end, connected env c, [KustoExecute db ".show tables"]).
Proof.
  intros I uri. unfold uri, LowLevel.read_template.
  rewrite (test_tables_db db I), (segment_db db I).
  destruct (identifier_cons db I) as (x & db' & ->).
  rewrite bind_get_client. cbn [client connected].
  apply query_then_render.
Qed.

Lemma read_table_schema (env : gmap string string) (c : Kusto.Client)
    (db table : string) :
  identifier db = true -> identifier table = true ->
  let uri := "schema://adx/" +:+ db +:+ "/" +:+ table in
  LowLevel.read_template uri (connected env c)
  = (match Kusto.execute c db (table +:+ " | getschema") with
     | inl e => Throw e
     | inr response =>
         match Kusto.primaryResults response with
         | [] => Throw (Js.TypeError
                   "Cannot read properties of undefined (reading 'toString')")
         | t :: _ =>
             Normal (LowLevel.text_result uri
                       ("Schema of the table " +:+ table) (Kusto.toString t))
         end
     end, connected env c, [KustoExecute db (table +:+ " | getschema")]).
Proof.
  intros Id It uri. unfold uri, LowLevel.read_template.
  rewrite (test_tables_db_table db table Id It).
  rewrite (test_table_schema_db_table db table Id It).
  destruct (segments_db_table db table Id It) as [-> ->].
  destruct (identifier_cons db Id) as (x & db' & ->).
  destruct (identifier_cons table It) as (y & table' & ->).
  rewrite bind_get_client. cbn [client connected].
  apply query_then_render.
Qed.

(** The trace of a read: nothing, or one query. *)
Lemma query_then_render_trace {A} (c : Kusto.Client) (db query : string)
    (payload : string -> A) (ctx : Ctx) :
  trace_of ((let* response := execute c db query in
             let* result := first_toString response in
             ret (payload result)) ctx) = [KustoExecute db query].
Proof. rewrite query_then_render. reflexivity. Qed.

Lemma getschema_is_not_show_functions (table : string) :
  table +:+ " | getschema" <> ".show functions".
Proof.
  intros E. assert (lacks "|" (table +:+ " | getschema") = true) as L
    by (rewrite E; reflexivity).
  rewrite lacks_app, andb_false_r in L. discriminate L.
Qed.

(** No read ever sends [.show functions]: the branch that would is behind
    a test that the branch before it always wins. *)
Theorem show_functions_never_issued (uri : string) (ctx : Ctx) (db : string) :
  ~ In (KustoExecute db ".show functions")
       (trace_of (LowLevel.read_template uri ctx)).
Proof.
  unfold LowLevel.read_template.
  destruct (test_to_end LowLevel.showTablesRegex uri) eqn:T1.
  - rewrite bind_get_client. destruct (client ctx) as [c|]; [|intros []].
    destruct (LowLevel.segment uri 3) as [[|x d]|]; try (intros []; fail).
    rewrite query_then_render_trace. intros [E|[]]. discriminate E.
  - destruct (test_to_end LowLevel.showTableSchemaRegex uri) eqn:T2.
    + rewrite bind_get_client. destruct (client ctx) as [c|]; [|intros []].
      destruct (LowLevel.segment uri 3) as [[|x d]|]; try (intros []; fail).
      destruct (LowLevel.segment uri 4) as [[|y t]|]; try (intros []; fail).
      rewrite query_then_render_trace. intros [E|[]].
      apply (f_equal (fun ev => match ev with
                                | KustoExecute _ q => q
                                | _ => ""
                                end)) in E.
      exact (getschema_is_not_show_functions _ E).
    + destruct (test_to_end LowLevel.showFunctionsRegex uri) eqn:T3;
        [|intros []].
      apply functions_pattern_shadowed in T3. congruence.
Qed.

End ReadFacts.

(** ** Reads through the registered handler *)

Module DispatchFacts.

Import LowLevelFacts.

Lemma dispatch_read_trace (uri : string) (ctx : Ctx) :
  trace_of (LowLevel.dispatch (LowLevel.initialize LowLevel.constructor)
              (Mcp.ReadResourceRequest uri) ctx)
  = trace_of (LowLevel.read_template uri ctx).
Proof.
  rewrite dispatch_read.
  destruct (LowLevel.read_template uri ctx) as [[[r|e] s] l]; reflexivity.
Qed.

Lemma dispatch_read_result (uri : string) (ctx : Ctx) :
  result_of (LowLevel.dispatch (LowLevel.initialize LowLevel.constructor)
               (Mcp.ReadResourceRequest uri) ctx)
  = match result_of (LowLevel.read_template uri ctx) with
    | Normal r => Normal (Some r)
    | Throw e => Throw e
    end.
Proof.
  rewrite dispatch_read.
  destruct (LowLevel.read_template uri ctx) as [[[r|e] s] l]; reflexivity.
Qed.

End DispatchFacts.

(** ** Start-up without a usable configuration *)

Module LifecycleFacts.

Import Lifecycle.

Lemma min1_reports (env : gmap string string) (key message : string) :
  Js.truthy_opt (env !! key) = false ->
  min1_issue_for key (min1 env key message).
Proof.
  unfold min1, Js.truthy_opt, min1_issue_for.
  destruct (env !! key) as [v|]; [|left; left; reflexivity].
  intros ->. right. exists message. left. reflexivity.
Qed.

Lemma min1_issue_for_app (key : string) (a b : list ZodIssue) :
  min1_issue_for key a \/ min1_issue_for key b -> min1_issue_for key (a ++ b).
Proof.
  unfold min1_issue_for. rewrite in_app_iff.
  intros [[H|[m H]]|[H|[m H]]]; auto.
  - right. exists m. apply in_app_iff. auto.
  - right. exists m. apply in_app_iff. auto.
Qed.

(** A required variable that is unset or empty makes the parse fail with an
    issue about that variable. *)
Lemma safeParse_missing (env : gmap string string) (key : string) :
  In key required ->
  Js.truthy_opt (env !! key) = false ->
  exists issues, safeParse env = inl issues /\ min1_issue_for key issues.
Proof.
  intros K F. unfold safeParse.
  set (issues := min1 env "ADX_CLUSTER_NAME" "Cluster name is required"
                 ++ min1 env "ADX_CLIENT_ID" "Client ID is required"
                 ++ min1 env "ADX_CLIENT_SECRET" "Client secret is required"
                 ++ min1 env "ADX_TENANT_ID" "Tenant ID is required").
  assert (min1_issue_for key issues) as I.
  { unfold issues, required in *. simpl in K.
    destruct K as [<-|[<-|[<-|[<-|[]]]]];
      repeat (apply min1_issue_for_app;
              first [ left; apply min1_reports; exact F | right ]).
    apply min1_reports; exact F. }
  exists issues. split; [|exact I].
  destruct issues as [|i l]; [|reflexivity].
  destruct I as [[]|[m []]].
Qed.

Lemma connect_missing (remote : Kusto.Cluster)
    (dotenv env : gmap string string) (key : string) :
  In key required ->
  Js.truthy_opt ((env ∪ dotenv) !! key) = false ->
  exists issues,
    min1_issue_for key issues /\
    (Lifecycle.config dotenv >> Lifecycle.connect_from_env remote) (fresh env)
    = (Normal tt, fresh (env ∪ dotenv),
       [ConsoleError "Environment variable validation failed:"
          (LoggedIssues issues)]).
Proof.
  intros K F. destruct (safeParse_missing _ key K F) as (issues & E & I).
  exists issues. split; [exact I|].
  unfold config, connect_from_env, bind, get_env, set_env, emit, fresh.
  cbn [process_env client]. rewrite E. reflexivity.
Qed.

End LifecycleFacts.

(** ** The callbacks of the templated variant *)

Module TemplatedFacts.

Import EffFacts Fixtures.

(** The functions callback is the one place that sends [.show functions];
    it is registered under the scheme [functions://]. *)
Lemma functions_callback_sends_show_functions
    (env : gmap string string) (c : Kusto.Client)
    (href : string) (data : Mcp.ResourceTemplateSchema) :
  trace_of (Templated.functions_of_the_db href data (connected env c))
  = [KustoExecute (Mcp.db data) ".show functions"].
Proof.
  unfold Templated.functions_of_the_db. rewrite bind_get_client.
  cbn [client connected]. rewrite query_then_render. reflexivity.
Qed.

Lemma functions_callback_registration :
  In (Templated.Resource "Functions of the db"
        (Templated.Template "functions://adx/{db}/functions")
        Templated.functions_of_the_db)
     (Templated.server (Templated.initialize Templated.constructor)).
Proof. simpl. tauto. Qed.

(** An answer without result table makes the rendering step raise. *)
Lemma query_tool_without_table (env : gmap string string)
    (data : Mcp.QueryToolSchema) :
  let c := empty_client in
  Templated.query_handler data (connected env c)
  = (Throw (Js.TypeError
              "Cannot read properties of undefined (reading 'toString')"),
     connected env c, [KustoExecute (Mcp.q_db data) (Mcp.q_query data)]).
Proof.
  intros c. unfold Templated.query_handler. rewrite bind_get_client.
  cbn [client connected]. rewrite query_then_render. reflexivity.
Qed.

(** The two readings of the conditional that masks the secret. *)
Lemma secret_text_masked (text : gmap string string -> string)
    (env : gmap string string) :
  text env = (if Js.truthy_opt (env !! "ADX_CLIENT_SECRET")
              then "******" else "Not set") ->
  (forall s, env !! "ADX_CLIENT_SECRET" = Some s -> s <> "" ->
             text env = "******")
  /\ (env !! "ADX_CLIENT_SECRET" = None \/ env !! "ADX_CLIENT_SECRET" = Some ""
      -> text env = "Not set").
Proof.
  intros ->. split.
  - intros s -> N. destruct s; [congruence|reflexivity].
  - intros [-> | ->]; reflexivity.
Qed.

End TemplatedFacts.

(** ** Names outside the word class *)

Module NameFacts.

Import Regex StringFacts RegexFacts AddressFacts.

(** Where the first separator stands decides both sides of it. *)
Lemma first_separator_unique (a b x y : string) :
  lacks "/" a = true -> lacks "/" b = true ->
  a +:+ String "/" x = b +:+ String "/" y -> a = b /\ x = y.
Proof.
  revert b. induction a as [|c a IH]; intros [|d b] La Lb E.
  - rewrite !app_nil_l in E. injection E as ->. auto.
  - rewrite app_nil_l, app_cons in E. injection E as <- _.
    discriminate Lb.
  - rewrite app_nil_l, app_cons in E. injection E as -> _.
    discriminate La.
  - rewrite !app_cons in E. injection E as -> E.
    cbn [lacks] in La, Lb.
    apply andb_true_iff in La as [_ La]. apply andb_true_iff in Lb as [_ Lb].
    destruct (IH b La Lb E) as [-> ->]. auto.
Qed.

(** A string without separator is no pair of segments. *)
Lemma no_separator_no_pair (r : regex) (x : string) :
  lacks "/" x = true ->
  matches (Cat (Plus WordChar) (Cat (Lit "/") r)) x = false.
Proof.
  intros L. apply not_true_is_false. intros H.
  apply matches_Matches in H.
  apply Matches_Cat in H as (a & s2 & -> & _ & H2).
  apply Matches_Cat in H2 as (sl & b & -> & Hs & _).
  inversion Hs; subst.
  rewrite !lacks_app in L. cbn in L.
  rewrite andb_false_r in L. discriminate L.
Qed.

(** After a first segment [db], a pair of segments has [db] first. *)
Lemma pair_after_db (r : regex) (db table : string) :
  identifier db = true ->
  matches (Cat (Plus WordChar) (Cat (Lit "/") r)) (db +:+ "/" +:+ table)
  = true ->
  Matches r table.
Proof.
  intros Id H. apply matches_Matches in H.
  apply Matches_Cat in H as (a & s2 & E & Ha & H2).
  apply Matches_Cat in H2 as (sl & b & -> & Hs & Hb).
  inversion Hs; subst.
  apply Matches_plus_word in Ha.
  change ("/" +:+ table) with (String "/" table) in E.
  rewrite app_cons, app_nil_l in E.
  apply first_separator_unique in E as [_ ->]; [exact Hb| |].
  - apply all_word_lacks; [reflexivity|apply identifier_all_word; exact Id].
  - apply all_word_lacks; [reflexivity|apply identifier_all_word; exact Ha].
Qed.

End NameFacts.

(** * The claims *)

Import Regex StringFacts RegexFacts AddressFacts EffFacts LowLevelFacts.
Import ReadFacts DispatchFacts LifecycleFacts TemplatedFacts NameFacts.
Import Fixtures.

(** C1, as the code has it. A read of [schema://adx/{db}/functions], with
    [db] an identifier and the client handle set, goes through the
    table-schema branch: the one query sent is [functions | getschema]
    against [db], not [.show functions]. The functions branch exists in the
    handler but the table-schema test, made first, accepts every address
    the functions test accepts ([functions_pattern_shadowed],
    [show_functions_never_issued]). *)
Theorem functions_address_reads_table_schema
    (env : gmap string string) (c : Kusto.Client) (db : string) :
  identifier db = true ->
  let uri := "schema://adx/" +:+ db +:+ "/functions" in
  trace_of (LowLevel.dispatch (LowLevel.initialize LowLevel.constructor)
              (Mcp.ReadResourceRequest uri) (connected env c))
  = [KustoExecute db "functions | getschema"].
Proof.
  intros I uri. unfold uri. rewrite dispatch_read_trace.
  change "/functions" with ("/" +:+ "functions").
  rewrite (read_table_schema env c db "functions" I eq_refl). reflexivity.
Qed.

Lemma functions_address_reads_table_schema_witness :
  identifier "mydb" = true /\
  trace_of (LowLevel.dispatch (LowLevel.initialize LowLevel.constructor)
              (Mcp.ReadResourceRequest "schema://adx/mydb/functions")
              (connected ∅ echo_client))
  = [KustoExecute "mydb" "functions | getschema"].
Proof.
  split; [reflexivity|].
  exact (functions_address_reads_table_schema ∅ echo_client "mydb" eq_refl).
Defined.

(** C2 (code defect). In the templated and the low-level variant a read of
    the configuration resource shows the fixed text [******] for a
    non-empty client secret and [Not set] for an unset one, as the claim
    says. The local-store variant has no mask: for every secret, its read
    shows the secret itself. *)
Theorem local_store_config_shows_the_secret
    (ctx : Ctx) (secret : string) :
  process_env ctx !! "ADX_CLIENT_SECRET" = Some secret ->
  secret <> "" ->
  let field := "config://azure-data-explorer-creds/client-secret" in
  (exists r,
     LocalStore.config_handler "config://azure-data-explorer-creds" ctx
     = (Normal r, ctx, [])
     /\ Mcp.field_text field r = Some secret)
  /\ (exists r,
        Templated.config_handler "config://azure-data-explorer-creds" ctx
        = (Normal (Some r), ctx, [])
        /\ Mcp.field_text field r = Some "******")
  /\ (exists r,
        LowLevel.read_config "config://azure-data-explorer-creds" ctx
        = (Normal (Mcp.ReadResult r), ctx, [])
        /\ Mcp.field_text field r = Some "******").
Proof.
  intros E N field.
  destruct (secret_text_masked Templated.secret_text (process_env ctx)
              eq_refl) as [Hset _].
  pose proof (Hset secret E N) as HT.
  assert (LowLevel.secret_text (process_env ctx) = "******") as HL by exact HT.
  split; [|split].
  - eexists. split; [reflexivity|].
    unfold Mcp.field_text. cbn. rewrite E. reflexivity.
  - eexists. split; [reflexivity|].
    unfold Mcp.field_text. cbn. rewrite HT. reflexivity.
  - eexists. split; [reflexivity|].
    unfold Mcp.field_text. cbn. rewrite HL. reflexivity.
Qed.

Lemma local_store_config_shows_the_secret_witness :
  exists r,
    LocalStore.config_handler "config://azure-data-explorer-creds"
      (Lifecycle.fresh full_env)
    = (Normal r, Lifecycle.fresh full_env, [])
    /\ Mcp.field_text "config://azure-data-explorer-creds/client-secret" r
       = Some "s3cret".
Proof.
  exact (proj1 (local_store_config_shows_the_secret
                  (Lifecycle.fresh full_env) "s3cret" eq_refl
                  ltac:(discriminate))).
Defined.

(** C3. With the client handle unset, every remote-dependent endpoint
    answers the caller with a [not initialized] error instead of letting
    the error escape, and nothing ends the process. The handler throws; the
    request boundary of the protocol library, inside which every handler
    runs, turns the throw into the reply. A read (db schema, table schema,
    functions list) gets an error reply with the message
    [Client is not initialized] (templated variant) or
    [Database client is not initialized] (low-level variant, on every
    address that passes one of its three tests); the query tool gets a
    result flagged as an error with that text. Each run completes normally,
    sends nothing to the remote and records no exit. *)
Theorem uninitialized_client_is_reported (env : gmap string string) :
  let ctx := Lifecycle.fresh env in
  let refused :=
    (Normal (Protocol.ErrorReply Protocol.InternalError
               "Client is not initialized"), ctx, []) in
  (forall href data,
     Protocol.onrequest (Templated.schema_of_the_db href data) ctx = refused
     /\ Protocol.onrequest (Templated.schema_of_the_table href data) ctx
        = refused
     /\ Protocol.onrequest (Templated.functions_of_the_db href data) ctx
        = refused)
  /\ (forall data,
        Protocol.call_tool (Templated.query_handler data) ctx
        = (Normal (Protocol.Result
                     {| Mcp.tool_contents :=
                          [ {| Mcp.type := "text";
                               Mcp.tool_text := "Client is not initialized" |} ];
                        Mcp.isError := Some true |}), ctx, []))
  /\ (forall uri,
        test_to_end LowLevel.showTablesRegex uri
        || test_to_end LowLevel.showTableSchemaRegex uri
        || test_to_end LowLevel.showFunctionsRegex uri = true ->
        Protocol.onrequest
          (LowLevel.dispatch (LowLevel.initialize LowLevel.constructor)
             (Mcp.ReadResourceRequest uri)) ctx
        = (Normal (Protocol.ErrorReply Protocol.InternalError
                     "Database client is not initialized"), ctx, [])).
Proof.
  intros ctx refused. repeat split.
  intros uri H. unfold Protocol.onrequest. rewrite dispatch_read.
  unfold LowLevel.read_template.
  destruct (test_to_end LowLevel.showTablesRegex uri); [reflexivity|].
  destruct (test_to_end LowLevel.showTableSchemaRegex uri); [reflexivity|].
  destruct (test_to_end LowLevel.showFunctionsRegex uri); [reflexivity|].
  discriminate H.
Qed.

Lemma uninitialized_client_is_reported_witness :
  Protocol.onrequest
    (LowLevel.dispatch (LowLevel.initialize LowLevel.constructor)
       (Mcp.ReadResourceRequest "schema://adx/mydb")) (Lifecycle.fresh ∅)
  = (Normal (Protocol.ErrorReply Protocol.InternalError
               "Database client is not initialized"),
     Lifecycle.fresh ∅, []).
Proof.
  refine (proj2 (proj2 (uninitialized_client_is_reported ∅))
            "schema://adx/mydb" _).
  vm_compute. reflexivity.
Defined.

(** C4. When the remote call of the query tool raises, the caller receives
    a result flagged as an error whose text is the description of the
    error, and the error goes no further. The callback itself has no
    [try]/[catch]; the [tools/call] boundary of the protocol library, inside
    which the callback runs, catches the error and builds the result. The
    one call made is the one that raised. *)
Theorem remote_error_is_reported
    (env : gmap string string) (c : Kusto.Client)
    (data : Mcp.QueryToolSchema) (e : Js.Error) :
  Kusto.execute c (Mcp.q_db data) (Mcp.q_query data) = inl e ->
  Protocol.call_tool (Templated.query_handler data) (connected env c)
  = (Normal (Protocol.Result (Protocol.tool_error e)), connected env c,
     [KustoExecute (Mcp.q_db data) (Mcp.q_query data)])
  /\ Mcp.isError (Protocol.tool_error e) = Some true
  /\ (forall description,
        Js.message e = Some description ->
        map Mcp.tool_text (Mcp.tool_contents (Protocol.tool_error e))
        = [description]).
Proof.
  intros E. split; [|split].
  - unfold Protocol.call_tool, Protocol.onrequest, try_catch,
      Templated.query_handler.
    rewrite bind_get_client. cbn [client connected].
    rewrite query_then_render, E. reflexivity.
  - reflexivity.
  - intros description M. destruct e; cbn in M |- *; congruence.
Qed.

Lemma remote_error_is_reported_witness :
  Protocol.call_tool
    (Templated.query_handler
       {| Mcp.q_db := "mydb"; Mcp.q_query := "Table1 | take 5" |})
    (connected ∅ failing_client)
  = (Normal (Protocol.Result
               {| Mcp.tool_contents :=
                    [ {| Mcp.type := "text";
                         Mcp.tool_text := "Request failed" |} ];
                  Mcp.isError := Some true |}),
     connected ∅ failing_client, [KustoExecute "mydb" "Table1 | take 5"]).
Proof.
  exact (proj1 (remote_error_is_reported ∅ failing_client
                  {| Mcp.q_db := "mydb"; Mcp.q_query := "Table1 | take 5" |}
                  (Js.PlainError "Request failed") eq_refl)).
Defined.

(** C5. With the client handle set, the query tool called with
    [{ db, query }] sends exactly one call to the remote client, with the
    query text and the database name as given; and when the remote answers
    with at least one result table, the handler returns, unflagged, the
    rendering of the first one. *)
Theorem query_tool_forwards_verbatim
    (env : gmap string string) (c : Kusto.Client) (db query : string) :
  let run :=
    Templated.query_handler {| Mcp.q_db := db; Mcp.q_query := query |}
      (connected env c) in
  trace_of run = [KustoExecute db query]
  /\ forall response t ts,
       Kusto.execute c db query = inr response ->
       Kusto.primaryResults response = t :: ts ->
       result_of run
       = Normal {| Mcp.tool_contents :=
                     [ {| Mcp.type := "text";
                          Mcp.tool_text := Kusto.toString t |} ];
                   Mcp.isError := None |}.
Proof.
  intros run. unfold run, Templated.query_handler.
  rewrite bind_get_client. cbn [client connected Mcp.q_db Mcp.q_query].
  rewrite query_then_render. split; [reflexivity|].
  intros response t ts E P. cbn [result_of fst]. rewrite E, P. reflexivity.
Qed.

Lemma query_tool_forwards_verbatim_witness :
  result_of (Templated.query_handler
               {| Mcp.q_db := "mydb"; Mcp.q_query := "Table1 | take 5" |}
               (connected ∅ echo_client))
  = Normal {| Mcp.tool_contents :=
                [ {| Mcp.type := "text";
                     Mcp.tool_text := "mydb <- Table1 | take 5" |} ];
              Mcp.isError := None |}.
Proof.
  exact (proj2 (query_tool_forwards_verbatim ∅ echo_client "mydb"
                  "Table1 | take 5")
           _ _ _ eq_refl eq_refl).
Defined.

(** X20. With the client handle set:
    - low-level variant: for every identifier [db] (a non-empty run of
      [A-Za-z0-9_]), a read of [schema://adx/{db}] sends exactly
      [.show tables] against [db], and when the remote answers with at least
      one result table the read returns the rendering of the first one;
    - templated variant: the callback of [schema://adx/{db}], called with
      any [db] and no [table], does the same. *)
Theorem db_address_issues_show_tables
    (env : gmap string string) (c : Kusto.Client) (db : string) :
  (identifier db = true ->
   let uri := "schema://adx/" +:+ db in
   let run :=
     LowLevel.dispatch (LowLevel.initialize LowLevel.constructor)
       (Mcp.ReadResourceRequest uri) (connected env c) in
   trace_of run = [KustoExecute db ".show tables"] /\
   forall response t ts,
     Kusto.execute c db ".show tables" = inr response ->
     Kusto.primaryResults response = t :: ts ->
     result_of run
     = Normal (Some (LowLevel.text_result uri ("Schema of the db " +:+ db)
                       (Kusto.toString t))))
  /\
  (forall href,
   let run :=
     Templated.schema_of_the_db href {| Mcp.db := db; Mcp.table := None |}
       (connected env c) in
   trace_of run = [KustoExecute db ".show tables"] /\
   forall response t ts,
     Kusto.execute c db ".show tables" = inr response ->
     Kusto.primaryResults response = t :: ts ->
     result_of run
     = Normal (Some {| Mcp.contents :=
                         [ {| Mcp.uri := href;
                              Mcp.name :=
                                Some ("List down all tables in the db "
                                      +:+ db);
                              Mcp.mimeType := Some "text/plain";
                              Mcp.text := Kusto.toString t |} ] |})).
Proof.
  split.
  - intros I uri run. unfold run, uri.
    rewrite dispatch_read_trace, dispatch_read_result, (read_tables env c db I).
    split; [reflexivity|].
    intros response t ts E P. cbn [result_of fst]. rewrite E, P. reflexivity.
  - intros href run. unfold run, Templated.schema_of_the_db.
    rewrite bind_get_client. cbn [client connected Mcp.table Js.truthy_opt negb].
    cbn [Mcp.db]. rewrite query_then_render.
    split; [reflexivity|].
    intros response t ts E P. cbn [result_of fst]. rewrite E, P. reflexivity.
Qed.

Lemma db_address_issues_show_tables_witness :
  identifier "mydb" = true /\
  result_of (LowLevel.dispatch (LowLevel.initialize LowLevel.constructor)
               (Mcp.ReadResourceRequest "schema://adx/mydb")
               (connected ∅ echo_client))
  = Normal (Some (LowLevel.text_result "schema://adx/mydb"
                    "Schema of the db mydb" "mydb <- .show tables")).
Proof.
  split; [reflexivity|].
  exact (proj2 (proj1 (db_address_issues_show_tables ∅ echo_client "mydb")
                  eq_refl)
           _ _ _ eq_refl eq_refl).
Defined.

(** C6 (code defect). In the low-level variant an address
    [schema://adx/{db}] is served only when [db] is a run of [A-Za-z0-9_]:
    for every other [db] without [/] or [:], such as [my-db], a read passes
    none of the three tests, sends nothing (no [.show tables]) and returns
    nothing, in every context. The server advertises the template
    [schema://adx/{db}] without that limit, and the callback of the
    templated variant serves every [db]. *)
Theorem db_outside_word_class_is_not_served (ctx : Ctx) (db : string) :
  identifier db = false ->
  lacks "/" db = true ->
  lacks ":" db = true ->
  LowLevel.dispatch (LowLevel.initialize LowLevel.constructor)
    (Mcp.ReadResourceRequest ("schema://adx/" +:+ db)) ctx
  = (Normal (Some Mcp.Undefined), ctx, []).
Proof.
  intros I Ls Lc. rewrite dispatch_read. unfold LowLevel.read_template.
  unfold LowLevel.showTablesRegex, LowLevel.showTableSchemaRegex,
    LowLevel.showFunctionsRegex.
  rewrite !test_prefixed by exact Lc.
  rewrite matches_plus_word, I.
  rewrite (no_separator_no_pair (Plus WordChar) db Ls).
  change (lits "/functions") with (Cat (Lit "/") (lits "functions")).
  rewrite (no_separator_no_pair (lits "functions") db Ls).
  reflexivity.
Qed.

Lemma hyphenated_db_is_not_served :
  let run :=
    LowLevel.dispatch (LowLevel.initialize LowLevel.constructor)
      (Mcp.ReadResourceRequest "schema://adx/my-db")
      (connected ∅ echo_client) in
  run = (Normal (Some Mcp.Undefined), connected ∅ echo_client, []) /\
  trace_of run <> [KustoExecute "my-db" ".show tables"].
Proof.
  cbv zeta.
  rewrite (db_outside_word_class_is_not_served (connected ∅ echo_client)
             "my-db" eq_refl eq_refl eq_refl).
  split; [reflexivity|discriminate].
Defined.

(** X21. With the client handle set:
    - low-level variant: for all identifiers [db] and [table], a read of
      [schema://adx/{db}/{table}] sends exactly [{table} | getschema]
      against [db], and when the remote answers with at least one result
      table the read returns the rendering of the first one;
    - templated variant: the callback of [schema://adx/{db}/{table}], called
      with any [db] and a non-empty [table], does the same. *)
Theorem table_address_issues_getschema
    (env : gmap string string) (c : Kusto.Client) (db table : string) :
  (identifier db = true -> identifier table = true ->
   let uri := "schema://adx/" +:+ db +:+ "/" +:+ table in
   let run :=
     LowLevel.dispatch (LowLevel.initialize LowLevel.constructor)
       (Mcp.ReadResourceRequest uri) (connected env c) in
   trace_of run = [KustoExecute db (table +:+ " | getschema")] /\
   forall response t ts,
     Kusto.execute c db (table +:+ " | getschema") = inr response ->
     Kusto.primaryResults response = t :: ts ->
     result_of run
     = Normal (Some (LowLevel.text_result uri
                       ("Schema of the table " +:+ table)
                       (Kusto.toString t))))
  /\
  (Js.truthy table = true ->
   forall href,
   let run :=
     Templated.schema_of_the_table href
       {| Mcp.db := db; Mcp.table := Some table |} (connected env c) in
   trace_of run = [KustoExecute db (table +:+ " | getschema")] /\
   forall response t ts,
     Kusto.execute c db (table +:+ " | getschema") = inr response ->
     Kusto.primaryResults response = t :: ts ->
     result_of run
     = Normal (Some {| Mcp.contents :=
                         [ {| Mcp.uri := href;
                              Mcp.name :=
                                Some ("Schema of the table " +:+ table);
                              Mcp.mimeType := Some "text/plain";
                              Mcp.text := Kusto.toString t |} ] |})).
Proof.
  split.
  - intros Id It uri run. unfold run, uri.
    rewrite dispatch_read_trace, dispatch_read_result.
    rewrite (read_table_schema env c db table Id It).
    split; [reflexivity|].
    intros response t ts E P. cbn [result_of fst]. rewrite E, P. reflexivity.
  - intros T href run. unfold run, Templated.schema_of_the_table.
    rewrite bind_get_client.
    cbn [client connected Mcp.table Mcp.db Js.truthy_opt Js.interpolate].
    rewrite T, query_then_render.
    split; [reflexivity|].
    intros response t ts E P. cbn [result_of fst]. rewrite E, P. reflexivity.
Qed.

Lemma table_address_issues_getschema_witness :
  (identifier "mydb" = true /\ identifier "mytable" = true) /\
  result_of (LowLevel.dispatch (LowLevel.initialize LowLevel.constructor)
               (Mcp.ReadResourceRequest "schema://adx/mydb/mytable")
               (connected ∅ echo_client))
  = Normal (Some (LowLevel.text_result "schema://adx/mydb/mytable"
                    "Schema of the table mytable"
                    "mydb <- mytable | getschema")).
Proof.
  split; [split; reflexivity|].
  exact (proj2 (proj1 (table_address_issues_getschema
                         ∅ echo_client "mydb" "mytable") eq_refl eq_refl)
           _ _ _ eq_refl eq_refl).
Defined.

(** C7 (code defect). In the low-level variant an address
    [schema://adx/{db}/{table}] is served only when [table] too is a run of
    [A-Za-z0-9_]: for every identifier [db] and every other [table] without
    [/] or [:], such as [my-table], a read passes none of the three tests,
    sends nothing (no [{table} | getschema]) and returns nothing, in every
    context. The server advertises the template [schema://adx/{db}/{table}]
    without that limit, and the callback of the templated variant serves
    every non-empty [table]. *)
Theorem table_outside_word_class_is_not_served
    (ctx : Ctx) (db table : string) :
  identifier db = true ->
  identifier table = false ->
  lacks "/" table = true ->
  lacks ":" table = true ->
  LowLevel.dispatch (LowLevel.initialize LowLevel.constructor)
    (Mcp.ReadResourceRequest ("schema://adx/" +:+ db +:+ "/" +:+ table)) ctx
  = (Normal (Some Mcp.Undefined), ctx, []).
Proof.
  intros Id It Ls Lc. rewrite dispatch_read. unfold LowLevel.read_template.
  assert (lacks ":" (db +:+ "/" +:+ table) = true) as L.
  { rewrite !lacks_app, Lc.
    rewrite (all_word_lacks ":" db); auto using identifier_all_word. }
  unfold LowLevel.showTablesRegex, LowLevel.showTableSchemaRegex,
    LowLevel.showFunctionsRegex.
  rewrite !test_prefixed by exact L.
  assert (matches (Plus WordChar) (db +:+ "/" +:+ table) = false) as ->.
  { rewrite matches_plus_word. unfold identifier.
    rewrite !all_word_app. cbn [all_word]. change (is_word "/") with false.
    destruct (Js.truthy _), (all_word db); reflexivity. }
  assert (matches (Cat (Plus WordChar) (Cat (Lit "/") (Plus WordChar)))
            (db +:+ "/" +:+ table) = false) as ->.
  { apply not_true_is_false. intros H.
    apply (pair_after_db _ db table Id), Matches_plus_word in H. congruence. }
  change (lits "/functions") with (Cat (Lit "/") (lits "functions")).
  assert (matches (Cat (Plus WordChar) (Cat (Lit "/") (lits "functions")))
            (db +:+ "/" +:+ table) = false) as ->.
  { apply not_true_is_false. intros H.
    apply (pair_after_db _ db table Id), Matches_lits in H. subst table.
    discriminate It. }
  reflexivity.
Qed.

Lemma hyphenated_table_is_not_served :
  let run :=
    LowLevel.dispatch (LowLevel.initialize LowLevel.constructor)
      (Mcp.ReadResourceRequest "schema://adx/mydb/my-table")
      (connected ∅ echo_client) in
  run = (Normal (Some Mcp.Undefined), connected ∅ echo_client, []) /\
  trace_of run <> [KustoExecute "mydb" "my-table | getschema"].
Proof.
  cbv zeta.
  rewrite (table_outside_word_class_is_not_served (connected ∅ echo_client)
             "mydb" "my-table" eq_refl eq_refl eq_refl eq_refl).
  split; [reflexivity|discriminate].
Defined.

(** C8. If one of the four required variables is unset or empty in the
    environment the validation sees (the process environment completed by
    the [.env] file), then [connect], run at start-up, logs one error that
    names the variable, leaves the client handle unset and completes
    normally. [createServer], whose registrations and transport start come
    first and do not read the environment, then completes with every
    endpoint registered, and the entry file neither logs a start-up failure
    nor exits. The same holds in the templated and the low-level variant. *)
Theorem connect_without_configuration
    (remote : Kusto.Cluster) (dotenv env : gmap string string)
    (key : string) :
  In key Lifecycle.required ->
  Js.truthy_opt ((env ∪ dotenv) !! key) = false ->
  exists issues,
    let logged :=
      [ConsoleError "Environment variable validation failed:"
         (LoggedIssues issues)] in
    let after := Lifecycle.fresh (env ∪ dotenv) in
    Lifecycle.min1_issue_for key issues
    /\ client after = None
    /\ LowLevel.connect remote dotenv (Lifecycle.fresh env)
       = (Normal tt, after, logged)
    /\ Templated.connect remote dotenv (Lifecycle.fresh env)
       = (Normal tt, after, logged)
    /\ LowLevel.createServer (inr tt) remote dotenv (Lifecycle.fresh env)
       = (Normal (LowLevel.initialize LowLevel.constructor), after, logged)
    /\ Templated.createServer (inr tt) remote dotenv (Lifecycle.fresh env)
       = (Normal (Templated.initialize Templated.constructor), after, logged)
    /\ Lifecycle.main (LowLevel.createServer (inr tt) remote dotenv)
         (Lifecycle.fresh env)
       = (Normal tt, after, logged)
    /\ Lifecycle.main (Templated.createServer (inr tt) remote dotenv)
         (Lifecycle.fresh env)
       = (Normal tt, after, logged)
    /\ (forall code, ~ In (ProcessExit code) logged).
Proof.
  intros K F. destruct (connect_missing remote dotenv env key K F)
    as (issues & I & E).
  exists issues. cbv zeta.
  assert (LowLevel.connect remote dotenv (Lifecycle.fresh env)
          = (Normal tt, Lifecycle.fresh (env ∪ dotenv),
             [ConsoleError "Environment variable validation failed:"
                (LoggedIssues issues)])) as EL by exact E.
  assert (Templated.connect remote dotenv (Lifecycle.fresh env)
          = (Normal tt, Lifecycle.fresh (env ∪ dotenv),
             [ConsoleError "Environment variable validation failed:"
                (LoggedIssues issues)])) as ET by exact E.
  repeat split; try assumption.
  - unfold LowLevel.createServer, Lifecycle.start, bind, ret.
    cbn beta iota. rewrite EL. reflexivity.
  - unfold Templated.createServer, Lifecycle.start, bind, ret.
    cbn beta iota. rewrite ET. reflexivity.
  - unfold Lifecycle.main, try_catch, LowLevel.createServer, Lifecycle.start,
      bind, ret.
    cbn beta iota. rewrite EL. reflexivity.
  - unfold Lifecycle.main, try_catch, Templated.createServer, Lifecycle.start,
      bind, ret.
    cbn beta iota. rewrite ET. reflexivity.
  - intros code [H|[]]. discriminate H.
Qed.

Lemma connect_without_configuration_witness :
  exists issues,
    LowLevel.connect echo_cluster ∅
      (Lifecycle.fresh (delete "ADX_TENANT_ID" full_env))
    = (Normal tt, Lifecycle.fresh (delete "ADX_TENANT_ID" full_env ∪ ∅),
       [ConsoleError "Environment variable validation failed:"
          (LoggedIssues issues)]).
Proof.
  destruct (connect_without_configuration echo_cluster ∅
              (delete "ADX_TENANT_ID" full_env) "ADX_TENANT_ID")
    as (issues & _ & _ & E & _).
  - unfold Lifecycle.required. simpl. tauto.
  - vm_compute. reflexivity.
  - exists issues. exact E.
Defined.

(** C9. [disconnect] is idempotent. From any state of the client handle,
    the first call completes normally and leaves the handle null (closing
    the client once if there was one); a second call right after completes
    normally, changes nothing and closes nothing; and a call on a null
    handle is the same no-op. The method is the same in every variant. *)
Theorem disconnect_idempotent
    (env : gmap string string) (handle : option Kusto.Client) :
  let ctx := {| process_env := env; client := handle |} in
  let first := LowLevel.disconnect ctx in
  let second := LowLevel.disconnect (ctx_of first) in
  result_of first = Normal tt
  /\ client (ctx_of first) = None
  /\ trace_of first = match handle with Some _ => [KustoClose] | None => [] end
  /\ second = (Normal tt, ctx_of first, [])
  /\ client (ctx_of second) = None
  /\ LowLevel.disconnect (Lifecycle.fresh env)
     = (Normal tt, Lifecycle.fresh env, [])
  /\ Templated.disconnect = LowLevel.disconnect.
Proof.
  cbv zeta. destruct handle as [c|]; repeat split.
Qed.

(** C10. In the low-level variant [initialize] registers a read handler
    twice under the same method: after [registerResources] the handler is
    the configuration one, after [initialize] it is the schema-template
    one. A read of [config://azure-data-explorer-creds] then passes none of
    the three pattern tests and returns no payload, sending nothing; the
    handler it replaced would have returned the four configuration
    entries. *)
Theorem config_read_is_shadowed (ctx : Ctx) :
  let uri := "config://azure-data-explorer-creds" in
  let registered := LowLevel.registerResources LowLevel.constructor in
  let this := LowLevel.initialize LowLevel.constructor in
  LowLevel.server registered !! "resources/read"
  = Some (LowLevel.on_read LowLevel.read_config)
  /\ LowLevel.server this !! "resources/read"
     = Some (LowLevel.on_read LowLevel.read_template)
  /\ test_to_end LowLevel.showTablesRegex uri = false
  /\ test_to_end LowLevel.showTableSchemaRegex uri = false
  /\ test_to_end LowLevel.showFunctionsRegex uri = false
  /\ LowLevel.dispatch this (Mcp.ReadResourceRequest uri) ctx
     = (Normal (Some Mcp.Undefined), ctx, [])
  /\ LowLevel.dispatch registered (Mcp.ReadResourceRequest uri) ctx
     = (Normal (Some (Mcp.ReadResult
                        {| Mcp.contents :=
                             LowLevel.config_contents (process_env ctx) |})),
        ctx, [])
  /\ length (LowLevel.config_contents (process_env ctx)) = 4.
Proof.
  cbv zeta. split.
  { unfold LowLevel.registerResources, LowLevel.setRequestHandler.
    cbn [LowLevel.server Mcp.method_literal]. apply lookup_insert_eq. }
  split; [exact read_handler_after_initialize|].
  assert (test_to_end LowLevel.showTablesRegex
            "config://azure-data-explorer-creds" = false) as T1
    by (vm_compute; reflexivity).
  assert (test_to_end LowLevel.showTableSchemaRegex
            "config://azure-data-explorer-creds" = false) as T2
    by (vm_compute; reflexivity).
  assert (test_to_end LowLevel.showFunctionsRegex
            "config://azure-data-explorer-creds" = false) as T3
    by (vm_compute; reflexivity).
  repeat (split; [assumption|]).
  split; [|split; [|reflexivity]].
  - rewrite dispatch_read. unfold LowLevel.read_template.
    rewrite T1, T2, T3. reflexivity.
  - unfold LowLevel.dispatch, LowLevel.registerResources,
      LowLevel.setRequestHandler.
    cbn [LowLevel.server Mcp.method_literal Mcp.method].
    rewrite lookup_insert_eq. reflexivity.
Qed.

(** * Further properties of the code *)

(** ** Validation of the environment and the connection *)

Module ConnectFacts.

Import Lifecycle Observe.

Lemma min1_paths (env : gmap string string) (key message : string) :
  map issue_path (min1 env key message)
  = if Js.truthy_opt (env !! key) then [] else [key].
Proof.
  unfold min1, Js.truthy_opt. destruct (env !! key) as [v|]; [|reflexivity].
  destruct (Js.truthy v); reflexivity.
Qed.

Lemma safeParse_inl (env : gmap string string) (issues : list ZodIssue) :
  safeParse env = inl issues -> issues = all_issues env.
Proof.
  unfold safeParse. fold (all_issues env).
  destruct (all_issues env) as [|i l];
    [destruct (env !! "ADX_CLUSTER_NAME"), (env !! "ADX_CLIENT_ID"),
       (env !! "ADX_CLIENT_SECRET"), (env !! "ADX_TENANT_ID")|];
    intros H; try discriminate H; injection H as <-; reflexivity.
Qed.

Lemma unusable_paths (env : gmap string string) :
  map issue_path (all_issues env) = unusable env.
Proof.
  unfold all_issues, unusable, required. rewrite !map_app, !min1_paths.
  cbn [List.filter].
  destruct (Js.truthy_opt (env !! "ADX_CLUSTER_NAME")),
    (Js.truthy_opt (env !! "ADX_CLIENT_ID")),
    (Js.truthy_opt (env !! "ADX_CLIENT_SECRET")),
    (Js.truthy_opt (env !! "ADX_TENANT_ID")); reflexivity.
Qed.

Lemma truthy_opt_Some (v : option string) :
  Js.truthy_opt v = true -> exists s, v = Some s /\ Js.truthy s = true.
Proof. destruct v as [s|]; [eauto|discriminate]. Qed.

Lemma safeParse_usable (env : gmap string string) :
  unusable env = [] ->
  exists clusterName clientId clientSecret tenantId,
    env !! "ADX_CLUSTER_NAME" = Some clusterName
    /\ env !! "ADX_CLIENT_ID" = Some clientId
    /\ env !! "ADX_CLIENT_SECRET" = Some clientSecret
    /\ env !! "ADX_TENANT_ID" = Some tenantId
    /\ safeParse env
       = inr {| ADX_CLUSTER_NAME := clusterName;
                ADX_CLIENT_ID := clientId;
                ADX_CLIENT_SECRET := clientSecret;
                ADX_TENANT_ID := tenantId |}.
Proof.
  intros U. pose proof (unusable_paths env) as P. rewrite U in P.
  apply map_eq_nil in P.
  unfold unusable, required in U. cbn [List.filter] in U.
  destruct (Js.truthy_opt (env !! "ADX_CLUSTER_NAME")) eqn:T1;
    [|discriminate U].
  destruct (Js.truthy_opt (env !! "ADX_CLIENT_ID")) eqn:T2;
    [|discriminate U].
  destruct (Js.truthy_opt (env !! "ADX_CLIENT_SECRET")) eqn:T3;
    [|discriminate U].
  destruct (Js.truthy_opt (env !! "ADX_TENANT_ID")) eqn:T4;
    [|discriminate U].
  apply truthy_opt_Some in T1 as (a & E1 & _).
  apply truthy_opt_Some in T2 as (b & E2 & _).
  apply truthy_opt_Some in T3 as (c & E3 & _).
  apply truthy_opt_Some in T4 as (d & E4 & _).
  exists a, b, c, d. repeat (split; [assumption|]).
  unfold safeParse. fold (all_issues env). rewrite P, E1, E2, E3, E4.
  reflexivity.
Qed.

Lemma safeParse_unusable (env : gmap string string) :
  unusable env <> [] -> safeParse env = inl (all_issues env).
Proof.
  intros U. rewrite <- unusable_paths in U.
  unfold safeParse. fold (all_issues env).
  destruct (all_issues env) as [|i l]; [contradiction U; reflexivity|].
  reflexivity.
Qed.

(** [connect] in any context, by what the validation and the client
    library say. *)
Lemma connect_run (remote : Kusto.Cluster) (dotenv env : gmap string string)
    (handle : option Kusto.Client) :
  (config dotenv >> connect_from_env remote)
    {| process_env := env; client := handle |}
  = match safeParse (env ∪ dotenv) with
    | inr data =>
        match client_for remote (ADX_CLUSTER_NAME data) (ADX_CLIENT_ID data)
                (ADX_CLIENT_SECRET data) (ADX_TENANT_ID data) with
        | inr c =>
            (Normal tt, {| process_env := env ∪ dotenv; client := Some c |},
             [])
        | inl e =>
            (Throw e, {| process_env := env ∪ dotenv; client := handle |}, [])
        end
    | inl issues =>
        (Normal tt, {| process_env := env ∪ dotenv; client := handle |},
         [ConsoleError "Environment variable validation failed:"
            (LoggedIssues issues)])
    end.
Proof.
  unfold config, connect_from_env, bind, get_env, set_env, set_client, emit,
    client_for.
  cbn [process_env client].
  destruct (safeParse (env ∪ dotenv)) as [issues|data]; [reflexivity|].
  destruct (Kusto.withAadApplicationKeyAuthentication remote _ _ _ _)
    as [e|kcsb]; [reflexivity|].
  destruct (Kusto.new_Client remote kcsb); reflexivity.
Qed.

Lemma connect_usable (remote : Kusto.Cluster)
    (dotenv env : gmap string string) (handle : option Kusto.Client)
    (data : EnvData) :
  safeParse (env ∪ dotenv) = inr data ->
  LowLevel.connect remote dotenv {| process_env := env; client := handle |}
  = match client_for remote (ADX_CLUSTER_NAME data) (ADX_CLIENT_ID data)
            (ADX_CLIENT_SECRET data) (ADX_TENANT_ID data) with
    | inr c =>
        (Normal tt, {| process_env := env ∪ dotenv; client := Some c |}, [])
    | inl e =>
        (Throw e, {| process_env := env ∪ dotenv; client := handle |}, [])
    end.
Proof.
  intros E. unfold LowLevel.connect. rewrite connect_run, E. reflexivity.
Qed.

End ConnectFacts.

Import ConnectFacts Observe.

(** X1. The validation of the environment succeeds exactly when none of the
    four required variables is unset or empty, and then hands on the four
    values as they are. Otherwise it reports every unusable variable, one
    issue each, in the order of the schema, not only the first one. *)
Theorem validation_reports_every_unusable_variable
    (env : gmap string string) :
  match Lifecycle.safeParse env with
  | inr data =>
      unusable env = []
      /\ env !! "ADX_CLUSTER_NAME" = Some (Lifecycle.ADX_CLUSTER_NAME data)
      /\ env !! "ADX_CLIENT_ID" = Some (Lifecycle.ADX_CLIENT_ID data)
      /\ env !! "ADX_CLIENT_SECRET" = Some (Lifecycle.ADX_CLIENT_SECRET data)
      /\ env !! "ADX_TENANT_ID" = Some (Lifecycle.ADX_TENANT_ID data)
  | inl issues =>
      unusable env <> [] /\ map issue_path issues = unusable env
  end.
Proof.
  destruct (unusable env) as [|k l] eqn:U.
  - destruct (safeParse_usable env U) as (a & b & c & d & ? & ? & ? & ? & ->).
    cbn. auto.
  - assert (unusable env <> []) as N by (rewrite U; discriminate).
    rewrite (safeParse_unusable env N). split; [discriminate|].
    rewrite unusable_paths. exact U.
Qed.

(** X2. With the four variables usable in the environment completed by the
    [.env] file, [connect] asks the client library for a connection to
    [https://{cluster}.kusto.windows.net] with the client id, secret and
    tenant of the environment: the builder first, then the client
    constructor. If the library hands over a client, the handle is set to
    it, nothing is logged and a handle that was set before is replaced
    without being closed. If the builder or the constructor throws, as it
    does on a blank application id, [connect] rejects with that error and
    the handle stays as it was. *)
Theorem connect_builds_the_client
    (remote : Kusto.Cluster) (dotenv env : gmap string string)
    (handle : option Kusto.Client) :
  unusable (env ∪ dotenv) = [] ->
  exists clusterName clientId clientSecret tenantId,
    (env ∪ dotenv) !! "ADX_CLUSTER_NAME" = Some clusterName
    /\ (env ∪ dotenv) !! "ADX_CLIENT_ID" = Some clientId
    /\ (env ∪ dotenv) !! "ADX_CLIENT_SECRET" = Some clientSecret
    /\ (env ∪ dotenv) !! "ADX_TENANT_ID" = Some tenantId
    /\ let before := {| process_env := env; client := handle |} in
       let rejected e :=
         (Throw e, {| process_env := env ∪ dotenv; client := handle |}, []) in
       let outcome :=
         match
           Kusto.withAadApplicationKeyAuthentication remote
             ("https://" +:+ clusterName +:+ ".kusto.windows.net")
             clientId clientSecret tenantId
         with
         | inl e => rejected e
         | inr kcsb =>
             match Kusto.new_Client remote kcsb with
             | inl e => rejected e
             | inr c =>
                 (Normal tt,
                  {| process_env := env ∪ dotenv; client := Some c |}, [])
             end
         end in
       LowLevel.connect remote dotenv before = outcome
       /\ Templated.connect remote dotenv before = outcome.
Proof.
  intros U.
  destruct (safeParse_usable _ U) as (a & b & c & d & E1 & E2 & E3 & E4 & E).
  exists a, b, c, d. repeat (split; [assumption|]). cbv zeta.
  unfold LowLevel.connect, Templated.connect. rewrite connect_run, E.
  unfold client_for.
  cbn [Lifecycle.ADX_CLUSTER_NAME Lifecycle.ADX_CLIENT_ID
       Lifecycle.ADX_CLIENT_SECRET Lifecycle.ADX_TENANT_ID].
  destruct (Kusto.withAadApplicationKeyAuthentication remote _ _ _ _)
    as [e|kcsb]; [split; reflexivity|].
  destruct (Kusto.new_Client remote kcsb); split; reflexivity.
Qed.

Lemma connect_builds_the_client_witness :
  exists c,
    LowLevel.connect echo_cluster ∅ (Lifecycle.fresh full_env)
    = (Normal tt, {| process_env := full_env ∪ ∅; client := Some c |}, [])
    /\ Kusto.dataSource (Kusto.kcsb c) = "https://help.kusto.windows.net".
Proof.
  destruct (connect_builds_the_client echo_cluster ∅ full_env None)
    as (a & b & c & d & E1 & E2 & E3 & E4 & EL & _).
  - vm_compute. reflexivity.
  - assert (Some a = Some "help") as Ha by (rewrite <- E1; reflexivity).
    assert (Some b = Some "app-id") as Hb by (rewrite <- E2; reflexivity).
    assert (Some c = Some "s3cret") as Hc by (rewrite <- E3; reflexivity).
    assert (Some d = Some "tenant") as Hd by (rewrite <- E4; reflexivity).
    injection Ha as ->. injection Hb as ->.
    injection Hc as ->. injection Hd as ->.
    eexists. split; [exact EL|reflexivity].
Defined.

(** X3. When the validation fails, [connect] leaves the client handle as it
    finds it: a handle set by an earlier call is neither cleared nor closed,
    so the stale client stays in use. *)
Theorem failed_connect_keeps_the_handle
    (remote : Kusto.Cluster) (dotenv env : gmap string string)
    (handle : option Kusto.Client) :
  unusable (env ∪ dotenv) <> [] ->
  exists issues,
    let run :=
      LowLevel.connect remote dotenv
        {| process_env := env; client := handle |} in
    run = (Normal tt, {| process_env := env ∪ dotenv; client := handle |},
           [ConsoleError "Environment variable validation failed:"
              (LoggedIssues issues)])
    /\ map issue_path issues = unusable (env ∪ dotenv)
    /\ Templated.connect remote dotenv
         {| process_env := env; client := handle |} = run.
Proof.
  intros U. exists (all_issues (env ∪ dotenv)). cbv zeta.
  unfold LowLevel.connect, Templated.connect.
  rewrite connect_run, (safeParse_unusable _ U).
  repeat split. apply unusable_paths.
Qed.

Lemma failed_connect_keeps_the_handle_witness :
  exists issues,
    LowLevel.connect echo_cluster ∅
      (connected (delete "ADX_CLIENT_ID" full_env) echo_client)
    = (Normal tt,
       connected (delete "ADX_CLIENT_ID" full_env ∪ ∅) echo_client,
       [ConsoleError "Environment variable validation failed:"
          (LoggedIssues issues)])
    /\ map issue_path issues = ["ADX_CLIENT_ID"].
Proof.
  destruct (failed_connect_keeps_the_handle echo_cluster ∅
              (delete "ADX_CLIENT_ID" full_env) (Some echo_client))
    as (issues & E & P & _).
  - vm_compute. discriminate.
  - exists issues. split; [exact E|]. rewrite P. vm_compute. reflexivity.
Defined.

(** X5. When attaching the transport fails, [createServer] rejects before
    [connect] runs: the entry file logs the error under
    [Error starting ADX MCP server:] and ends the process with status 1;
    the environment is not validated and the context is untouched. *)
Theorem start_failure_ends_the_process
    (e : Js.Error) (remote : Kusto.Cluster) (dotenv : gmap string string)
    (ctx : Ctx) :
  let ended :=
    (Normal tt, ctx,
     [ConsoleError "Error starting ADX MCP server:" (LoggedError e);
      ProcessExit 1]) in
  Lifecycle.main (LowLevel.createServer (inl e) remote dotenv) ctx = ended
  /\ Lifecycle.main (Templated.createServer (inl e) remote dotenv) ctx = ended
  /\ LowLevel.createServer (inl e) remote dotenv ctx = (Throw e, ctx, []).
Proof. repeat split. Qed.

(** ** What the unanchored patterns accept *)

Module SearchFacts.

Import Regex StringFacts RegexFacts AddressFacts.

Lemma suffixes_spec (t s : string) :
  In t (suffixes s) <-> exists pre, s = pre +:+ t.
Proof.
  split.
  - induction s as [|c s IH]; cbn [suffixes].
    + intros [<-|[]]. exists "". reflexivity.
    + intros [<-|I]; [exists ""; reflexivity|].
      destruct (IH I) as [pre ->]. exists (String c pre). reflexivity.
  - intros [pre ->]. induction pre as [|c pre IH].
    + rewrite app_nil_l. destruct t; cbn [suffixes]; left; reflexivity.
    + rewrite app_cons. cbn [suffixes]. right. exact IH.
Qed.

(** A search for a pattern that starts with a literal run and ends with the
    end anchor succeeds exactly on the strings that end with that run
    followed by a word of the rest of the pattern. *)
Lemma test_to_end_prefixed (p : string) (r : regex) (s : string) :
  test_to_end (Cat (lits p) r) s = true
  <-> exists pre x, s = pre +:+ p +:+ x /\ Matches r x.
Proof.
  rewrite test_to_end_spec. split.
  - intros (t & I & H). apply suffixes_spec in I as [pre ->].
    apply Matches_Cat in H as (s1 & s2 & -> & H1 & H2).
    apply Matches_lits in H1. subst. eauto.
  - intros (pre & x & -> & H). exists (p +:+ x). split.
    + apply suffixes_spec. eauto.
    + constructor; [apply Matches_lits; reflexivity|exact H].
Qed.

Lemma Matches_db_table (s : string) :
  Matches (Cat (Plus WordChar) (Cat (Lit "/") (Plus WordChar))) s
  <-> exists db table,
        s = db +:+ "/" +:+ table
        /\ identifier db = true /\ identifier table = true.
Proof.
  rewrite Matches_Cat. split.
  - intros (db & rest & -> & Hd & Hr).
    apply Matches_Cat in Hr as (sl & table & -> & Hs & Ht).
    inversion Hs; subst. exists db, table.
    rewrite <- !Matches_plus_word. auto.
  - intros (db & table & -> & Hd & Ht). exists db, ("/" +:+ table).
    rewrite <- Matches_plus_word in Hd, Ht. repeat split; [exact Hd|].
    change ("/" +:+ table) with (String "/" "" +:+ table).
    constructor; [constructor|exact Ht].
Qed.

Lemma Matches_db_functions (s : string) :
  Matches (Cat (Plus WordChar) (lits "/functions")) s
  <-> exists db, s = db +:+ "/functions" /\ identifier db = true.
Proof.
  rewrite Matches_Cat. split.
  - intros (db & rest & -> & Hd & Hr). apply Matches_lits in Hr. subst.
    exists db. rewrite <- Matches_plus_word. auto.
  - intros (db & -> & Hd). exists db, "/functions".
    rewrite <- Matches_plus_word in Hd. repeat split; [exact Hd|].
    apply Matches_lits. reflexivity.
Qed.

(** *** Segments when text precedes the prefix *)

Lemma split_after_text (pre rest : string) :
  lacks "/" pre = true ->
  Js.split "/" (pre +:+ "schema://adx/" +:+ rest)
  = (pre +:+ "schema:") :: "" :: "adx" :: Js.split "/" rest.
Proof.
  intros L.
  change ("schema://adx/" +:+ rest)
    with ("schema:" +:+ String "/" ("" +:+ String "/"
            ("adx" +:+ String "/" rest))).
  rewrite <- app_assoc, split_app_sep.
  - rewrite !split_app_sep by reflexivity. reflexivity.
  - rewrite lacks_app, L. reflexivity.
Qed.

Lemma split_leading_segment (seg rest : string) :
  lacks "/" seg = true ->
  Js.split "/" (seg +:+ "/" +:+ rest) = seg :: Js.split "/" rest.
Proof.
  intros L. change ("/" +:+ rest) with (String "/" rest).
  apply split_app_sep. exact L.
Qed.

(** *** The last character *)

Lemma last_char_app (a b : string) :
  Js.truthy b = true -> Observe.last_char (a +:+ b) = Observe.last_char b.
Proof.
  intros T. induction a as [|c a IH]; [reflexivity|].
  rewrite app_cons. cbn [Observe.last_char]. rewrite IH.
  destruct (a +:+ b) eqn:E; [|reflexivity].
  apply app_eq_nil in E as [_ ->]. discriminate T.
Qed.

Lemma identifier_last_char (s : string) :
  identifier s = true ->
  exists c, Observe.last_char s = Some c /\ is_word c = true.
Proof.
  intros I. pose proof (identifier_all_word s I) as A.
  destruct (identifier_cons s I) as (c & s' & ->). clear I.
  revert c A. induction s' as [|d s' IH]; intros c A.
  - exists c. cbn in A |- *. apply andb_true_iff in A as [W _]. auto.
  - cbn [all_word] in A. apply andb_true_iff in A as [_ A].
    destruct (IH d A) as (x & L & W). exists x. split; [|exact W].
    cbn [Observe.last_char]. exact L.
Qed.

End SearchFacts.

Import SearchFacts.

(** X6. The three pattern tests of the low-level read handler have no start
    anchor: each accepts exactly the strings that END with an address of
    its shape, whatever text comes before. The tables test accepts
    [...schema://adx/{db}], the table-schema test
    [...schema://adx/{db}/{table}] and the functions test
    [...schema://adx/{db}/functions], with [db] and [table] non-empty runs
    of [A-Za-z0-9_]. *)
Theorem pattern_tests_accept_any_leading_text (uri : string) :
  (test_to_end LowLevel.showTablesRegex uri = true
   <-> exists pre db,
         uri = pre +:+ "schema://adx/" +:+ db /\ identifier db = true)
  /\ (test_to_end LowLevel.showTableSchemaRegex uri = true
      <-> exists pre db table,
            uri = pre +:+ "schema://adx/" +:+ db +:+ "/" +:+ table
            /\ identifier db = true /\ identifier table = true)
  /\ (test_to_end LowLevel.showFunctionsRegex uri = true
      <-> exists pre db,
            uri = pre +:+ "schema://adx/" +:+ db +:+ "/functions"
            /\ identifier db = true).
Proof.
  unfold LowLevel.showTablesRegex, LowLevel.showTableSchemaRegex,
    LowLevel.showFunctionsRegex.
  rewrite !test_to_end_prefixed. repeat split.
  - intros (pre & x & -> & H). apply Matches_plus_word in H. eauto.
  - intros (pre & db & -> & H). apply Matches_plus_word in H. eauto.
  - intros (pre & x & -> & H).
    apply Matches_db_table in H as (db & table & -> & Hd & Ht).
    exists pre, db, table. auto.
  - intros (pre & db & table & -> & Hd & Ht).
    exists pre, (db +:+ "/" +:+ table). split; [reflexivity|].
    apply Matches_db_table. eauto.
  - intros (pre & x & -> & H).
    apply Matches_db_functions in H as (db & -> & Hd). eauto.
  - intros (pre & db & -> & Hd).
    exists pre, (db +:+ "/functions"). split; [reflexivity|].
    apply Matches_db_functions. eauto.
Qed.

(** ** The tables branch on addresses with leading text *)

Module LeadingTextFacts.

Import Regex StringFacts RegexFacts AddressFacts EffFacts SearchFacts Fixtures.

Lemma test_tables_after_text (pre db : string) :
  identifier db = true ->
  test_to_end LowLevel.showTablesRegex (pre +:+ "schema://adx/" +:+ db)
  = true.
Proof.
  intros I. unfold LowLevel.showTablesRegex. apply test_to_end_prefixed.
  exists pre, db. split; [reflexivity|]. apply Matches_plus_word. exact I.
Qed.

(** Once the tables test has passed, the database is whatever the fourth
    segment of the whole address is. *)
Lemma read_tables_by_segment (env : gmap string string) (c : Kusto.Client)
    (uri : string) :
  test_to_end LowLevel.showTablesRegex uri = true ->
  LowLevel.read_template uri (connected env c)
  = match LowLevel.segment uri 3 with
    | Some (String x d) =>
        (match Kusto.execute c (String x d) ".show tables" with
         | inl e => Throw e
         | inr response =>
             match Kusto.primaryResults response with
             | [] => Throw (Js.TypeError
                       "Cannot read properties of undefined (reading 'toString')")
             | t :: _ =>
                 Normal (LowLevel.text_result uri
                           ("Schema of the db " +:+ String x d)
                           (Kusto.toString t))
             end
         end, connected env c, [KustoExecute (String x d) ".show tables"])
    | _ => (Normal (LowLevel.invalid_uri uri), connected env c, [])
    end.
Proof.
  intros T. unfold LowLevel.read_template. rewrite T, bind_get_client.
  cbn [client connected].
  destruct (LowLevel.segment uri 3) as [[|x d]|]; try reflexivity.
  apply query_then_render.
Qed.

Lemma lacks_slash_identifier (s : string) :
  identifier s = true -> lacks "/" s = true.
Proof.
  intros I. apply all_word_lacks; [reflexivity|].
  apply identifier_all_word; exact I.
Qed.

End LeadingTextFacts.

Import LeadingTextFacts.

(** X7. Text in front of the scheme does not stop the low-level read
    handler: an address [{text}schema://adx/{db}], where the text has no
    [/] and [db] is an identifier, is served like [schema://adx/{db}]. With
    the client handle set, exactly [.show tables] is sent against [db], and
    the payload carries the address as it was given. *)
Theorem leading_text_is_ignored
    (env : gmap string string) (c : Kusto.Client) (text db : string) :
  lacks "/" text = true ->
  identifier db = true ->
  let uri := text +:+ "schema://adx/" +:+ db in
  let run := LowLevel.read_template uri (connected env c) in
  trace_of run = [KustoExecute db ".show tables"]
  /\ forall response t ts,
       Kusto.execute c db ".show tables" = inr response ->
       Kusto.primaryResults response = t :: ts ->
       result_of run
       = Normal (LowLevel.text_result uri ("Schema of the db " +:+ db)
                   (Kusto.toString t)).
Proof.
  intros L I uri run. unfold run, uri.
  rewrite (read_tables_by_segment env c _ (test_tables_after_text text db I)).
  unfold LowLevel.segment. rewrite (split_after_text text db L).
  rewrite (split_no_sep "/" db (lacks_slash_identifier db I)).
  destruct (identifier_cons db I) as (x & d & ->). cbn [lookup list_lookup].
  split; [reflexivity|].
  intros response t ts E P. cbn [result_of fst]. rewrite E, P. reflexivity.
Qed.

Lemma leading_text_is_ignored_witness :
  result_of (LowLevel.read_template "xschema://adx/mydb"
               (connected ∅ echo_client))
  = Normal (LowLevel.text_result "xschema://adx/mydb" "Schema of the db mydb"
              "mydb <- .show tables").
Proof.
  exact (proj2 (leading_text_is_ignored ∅ echo_client "x" "mydb"
                  eq_refl eq_refl)
           _ _ _ eq_refl eq_refl).
Defined.

(** X8. One more segment in front shifts the segments the handler reads:
    for an address [{segment}/schema://adx/{db}] the tables test passes,
    but the database is taken from the fourth segment of the whole address,
    which is now [adx]. With the client handle set the handler sends
    [.show tables] against the database [adx], not against [db]. *)
Theorem leading_segment_queries_adx
    (env : gmap string string) (c : Kusto.Client) (seg db : string) :
  lacks "/" seg = true ->
  identifier db = true ->
  let uri := seg +:+ "/" +:+ "schema://adx/" +:+ db in
  trace_of (LowLevel.read_template uri (connected env c))
  = [KustoExecute "adx" ".show tables"].
Proof.
  intros L I uri. unfold uri.
  assert (test_to_end LowLevel.showTablesRegex
            (seg +:+ "/" +:+ "schema://adx/" +:+ db) = true) as T.
  { rewrite <- app_assoc. apply test_tables_after_text. exact I. }
  rewrite (read_tables_by_segment env c _ T).
  unfold LowLevel.segment.
  rewrite (split_leading_segment seg _ L), split_prefixed.
  reflexivity.
Qed.

Lemma leading_segment_queries_adx_witness :
  trace_of (LowLevel.read_template "files/schema://adx/mydb"
              (connected ∅ echo_client))
  = [KustoExecute "adx" ".show tables"].
Proof.
  exact (leading_segment_queries_adx ∅ echo_client "files" "mydb"
           eq_refl eq_refl).
Defined.

(** X9. The [Invalid URI] payload of the tables branch is what two leading
    segments produce: for an address [{a}/{b}/schema://adx/{db}] the fourth
    segment is empty, and with the client handle set the handler returns
    the payload named [Error] with text [Invalid URI] and sends nothing. *)
Theorem two_leading_segments_are_invalid
    (env : gmap string string) (c : Kusto.Client) (a b db : string) :
  lacks "/" a = true ->
  lacks "/" b = true ->
  identifier db = true ->
  let uri := a +:+ "/" +:+ b +:+ "/" +:+ "schema://adx/" +:+ db in
  LowLevel.read_template uri (connected env c)
  = (Normal (LowLevel.invalid_uri uri), connected env c, []).
Proof.
  intros La Lb I uri. unfold uri.
  assert (test_to_end LowLevel.showTablesRegex
            (a +:+ "/" +:+ b +:+ "/" +:+ "schema://adx/" +:+ db) = true) as T.
  { replace (a +:+ "/" +:+ b +:+ "/" +:+ "schema://adx/" +:+ db)
      with ((a +:+ "/" +:+ b +:+ "/") +:+ "schema://adx/" +:+ db)
      by (rewrite !app_assoc; reflexivity).
    apply test_tables_after_text. exact I. }
  rewrite (read_tables_by_segment env c _ T).
  unfold LowLevel.segment.
  rewrite (split_leading_segment a _ La), (split_leading_segment b _ Lb).
  rewrite split_prefixed. reflexivity.
Qed.

Lemma two_leading_segments_are_invalid_witness :
  LowLevel.read_template "//schema://adx/mydb" (connected ∅ echo_client)
  = (Normal (LowLevel.invalid_uri "//schema://adx/mydb"),
     connected ∅ echo_client, []).
Proof.
  exact (two_leading_segments_are_invalid ∅ echo_client "" "" "mydb"
           eq_refl eq_refl eq_refl).
Defined.

(** ** Addresses no pattern accepts *)

Module UnservedFacts.

Import Regex StringFacts RegexFacts AddressFacts SearchFacts.

Lemma accepted_ends_with_word (r : regex) (uri : string) :
  (forall x, Matches r x ->
             exists c, Observe.last_char x = Some c /\ is_word c = true) ->
  test_to_end (Cat (lits "schema://adx/") r) uri = true ->
  exists c, Observe.last_char uri = Some c /\ is_word c = true.
Proof.
  intros E T. apply test_to_end_prefixed in T as (pre & x & -> & H).
  destruct (E x H) as (c & L & W). exists c. split; [|exact W].
  assert (Js.truthy x = true) as Tx by (destruct x; [discriminate L|reflexivity]).
  rewrite !last_char_app; auto.
Qed.

Lemma any_test_ends_with_word (uri : string) :
  test_to_end LowLevel.showTablesRegex uri
  || test_to_end LowLevel.showTableSchemaRegex uri
  || test_to_end LowLevel.showFunctionsRegex uri = true ->
  exists c, Observe.last_char uri = Some c /\ is_word c = true.
Proof.
  intros H. apply orb_true_iff in H as [H|H];
    [apply orb_true_iff in H as [H|H]|];
    revert H; apply accepted_ends_with_word; intros x M.
  - apply Matches_plus_word in M. apply identifier_last_char. exact M.
  - apply Matches_db_table in M as (db & table & -> & _ & It).
    rewrite !last_char_app; auto using identifier_truthy.
    apply identifier_last_char. exact It.
  - apply Matches_db_functions in M as (db & -> & _).
    rewrite last_char_app by reflexivity. exists "s"%char. auto.
Qed.

End UnservedFacts.

Import UnservedFacts.

(** X10. An address whose last character is not in [A-Za-z0-9_] (a trailing
    [/], a dot, a closing brace, or an empty address) passes none of the
    three tests of the low-level read handler: the handler returns nothing,
    sends nothing and raises nothing, even while the client handle is
    unset. *)
Theorem address_ending_outside_word_is_unserved (uri : string) (ctx : Ctx) :
  (forall c, Observe.last_char uri = Some c -> is_word c = false) ->
  LowLevel.read_template uri ctx = (Normal Mcp.Undefined, ctx, []).
Proof.
  intros H. unfold LowLevel.read_template.
  destruct (test_to_end LowLevel.showTablesRegex uri
            || test_to_end LowLevel.showTableSchemaRegex uri
            || test_to_end LowLevel.showFunctionsRegex uri) eqn:T.
  - apply any_test_ends_with_word in T as (c & L & W).
    rewrite (H c L) in W. discriminate W.
  - apply orb_false_iff in T as [T T3]. apply orb_false_iff in T as [T1 T2].
    rewrite T1, T2, T3. reflexivity.
Qed.

Lemma address_ending_outside_word_is_unserved_witness :
  LowLevel.read_template "schema://adx/mydb/" (Lifecycle.fresh ∅)
  = (Normal Mcp.Undefined, Lifecycle.fresh ∅, []).
Proof.
  apply (address_ending_outside_word_is_unserved "schema://adx/mydb/"
           (Lifecycle.fresh ∅)).
  intros c E. injection E as <-. reflexivity.
Defined.

(** X11. A read through the low-level server never changes the environment
    or the client handle, and it sends at most one call to the remote
    client, never a close; this holds for every address and every context,
    whether the read returns, returns nothing or raises. *)
Theorem read_is_read_only (uri : string) (ctx : Ctx) :
  let run :=
    LowLevel.dispatch (LowLevel.initialize LowLevel.constructor)
      (Mcp.ReadResourceRequest uri) ctx in
  ctx_of run = ctx
  /\ length (trace_of run) <= 1
  /\ forallb is_execute (trace_of run) = true.
Proof.
  cbv zeta. rewrite dispatch_read.
  assert (ctx_of (LowLevel.read_template uri ctx) = ctx
          /\ length (trace_of (LowLevel.read_template uri ctx)) <= 1
          /\ forallb is_execute (trace_of (LowLevel.read_template uri ctx))
             = true) as H.
  { unfold LowLevel.read_template.
    destruct (test_to_end LowLevel.showTablesRegex uri);
      [|destruct (test_to_end LowLevel.showTableSchemaRegex uri);
        [|destruct (test_to_end LowLevel.showFunctionsRegex uri)]];
      rewrite ?bind_get_client;
      try (destruct (client ctx) as [c|]);
      try (destruct (LowLevel.segment uri 3) as [[|x d]|]);
      try (destruct (LowLevel.segment uri 4) as [[|y t]|]);
      rewrite ?query_then_render;
      try (cbn; repeat split; lia).
    all: unfold bind; rewrite query_then_render;
      destruct (Kusto.execute c _ _) as [e|response];
      [|destruct (Kusto.primaryResults response)];
      cbn; repeat split; lia. }
  destruct (LowLevel.read_template uri ctx) as [[[r|e] s] l]; exact H.
Qed.

(** X12. No read through the low-level server ever sends
    [.show functions], whatever the address and the context: every address
    that passes the functions test has already passed the table-schema
    test, which is made first. *)
Theorem functions_branch_is_unreachable (uri : string) (ctx : Ctx) :
  (test_to_end LowLevel.showFunctionsRegex uri = true ->
   test_to_end LowLevel.showTableSchemaRegex uri = true)
  /\ forall db,
       ~ In (KustoExecute db ".show functions")
            (trace_of (LowLevel.dispatch
                         (LowLevel.initialize LowLevel.constructor)
                         (Mcp.ReadResourceRequest uri) ctx)).
Proof.
  split; [apply functions_pattern_shadowed|].
  intros db. rewrite dispatch_read_trace. apply show_functions_never_issued.
Qed.

Lemma functions_branch_is_unreachable_witness :
  test_to_end LowLevel.showTableSchemaRegex "schema://adx/mydb/functions"
  = true.
Proof.
  apply (proj1 (functions_branch_is_unreachable
                  "schema://adx/mydb/functions" (Lifecycle.fresh ∅))).
  vm_compute. reflexivity.
Defined.

(** X13. The two schema callbacks of the templated variant split the work by
    the [table] variable alone. With the client handle set and for every
    [db] and [table], exactly one of them sends a query and the other
    returns nothing without sending anything: a missing or empty [table]
    goes to [.show tables], any other to [{table} | getschema]. *)
Theorem schema_callbacks_split_by_table
    (env : gmap string string) (c : Kusto.Client)
    (href db : string) (table : option string) :
  let ctx := connected env c in
  let data := {| Mcp.db := db; Mcp.table := table |} in
  if Js.truthy_opt table then
    Templated.schema_of_the_db href data ctx = (Normal None, ctx, [])
    /\ trace_of (Templated.schema_of_the_table href data ctx)
       = [KustoExecute db (Js.interpolate table +:+ " | getschema")]
  else
    Templated.schema_of_the_table href data ctx = (Normal None, ctx, [])
    /\ trace_of (Templated.schema_of_the_db href data ctx)
       = [KustoExecute db ".show tables"].
Proof.
  cbv zeta. unfold Templated.schema_of_the_db, Templated.schema_of_the_table.
  rewrite !bind_get_client. cbn [client connected Mcp.table Mcp.db].
  destruct (Js.truthy_opt table); cbn [negb];
    rewrite query_then_render; split; reflexivity.
Qed.


(** ** The configuration resource *)

Module ConfigFacts.

Import StringFacts.

Lemma startsWith_app (p rest : string) : Js.startsWith (p +:+ rest) p = true.
Proof.
  unfold Js.startsWith. induction p as [|c p IH]; [destruct rest; reflexivity|].
  rewrite app_cons. cbn [String.prefix].
  destruct (ascii_dec c c) as [_|N]; [exact IH|contradiction N; reflexivity].
Qed.

Lemma secret_text_by_truthiness (env1 env2 : gmap string string) :
  Js.truthy_opt (env1 !! "ADX_CLIENT_SECRET")
  = Js.truthy_opt (env2 !! "ADX_CLIENT_SECRET") ->
  Templated.secret_text env1 = Templated.secret_text env2
  /\ LowLevel.secret_text env1 = LowLevel.secret_text env2.
Proof.
  unfold Templated.secret_text, LowLevel.secret_text. intros ->.
  split; reflexivity.
Qed.

End ConfigFacts.

Import ConfigFacts.

(** X16. The configuration handler of the low-level variant tests only how
    the address starts. Every address that begins with
    [config://azure-data-explorer-creds], such as the sub-addresses its own
    entries carry, is answered with the same four entries; the handler does
    not select the entry asked for. (This is the handler that
    [registerResources] installs.) *)
Theorem config_handler_ignores_the_sub_address (rest : string) (ctx : Ctx) :
  let uri := "config://azure-data-explorer-creds" +:+ rest in
  LowLevel.dispatch (LowLevel.registerResources LowLevel.constructor)
    (Mcp.ReadResourceRequest uri) ctx
  = (Normal (Some (Mcp.ReadResult
                     {| Mcp.contents :=
                          LowLevel.config_contents (process_env ctx) |})),
     ctx, [])
  /\ map Mcp.uri (LowLevel.config_contents (process_env ctx))
     = [ "config://azure-data-explorer-creds/cluster-name";
         "config://azure-data-explorer-creds/client-id";
         "config://azure-data-explorer-creds/client-secret";
         "config://azure-data-explorer-creds/tenant-id" ].
Proof.
  cbv zeta. split; [|reflexivity].
  unfold LowLevel.dispatch, LowLevel.registerResources,
    LowLevel.setRequestHandler.
  cbn [LowLevel.server Mcp.method_literal Mcp.method].
  rewrite lookup_insert_eq.
  unfold bind, LowLevel.on_read, LowLevel.read_config.
  rewrite startsWith_app. reflexivity.
Qed.

(** X17. In the two masking variants a read of the configuration resource
    depends on the client secret only through whether it is set to a
    non-empty string: two environments that agree on every other variable
    and both hold a non-empty secret (or both none) give the same reply. The
    other three values are shown as they are. *)
Theorem config_read_does_not_depend_on_the_secret
    (env1 env2 : gmap string string) (handle : option Kusto.Client)
    (uri : string) :
  (forall key, key <> "ADX_CLIENT_SECRET" -> env1 !! key = env2 !! key) ->
  Js.truthy_opt (env1 !! "ADX_CLIENT_SECRET")
  = Js.truthy_opt (env2 !! "ADX_CLIENT_SECRET") ->
  result_of (Templated.config_handler uri
               {| process_env := env1; client := handle |})
  = result_of (Templated.config_handler uri
                 {| process_env := env2; client := handle |})
  /\ result_of (LowLevel.read_config uri
                  {| process_env := env1; client := handle |})
     = result_of (LowLevel.read_config uri
                    {| process_env := env2; client := handle |}).
Proof.
  intros Same T. destruct (secret_text_by_truthiness env1 env2 T) as [ST SL].
  split.
  - unfold Templated.config_handler, bind, get_env, ret.
    cbn [process_env result_of fst].
    rewrite ST, (Same "ADX_CLUSTER_NAME"), (Same "ADX_CLIENT_ID"),
      (Same "ADX_TENANT_ID") by discriminate.
    reflexivity.
  - unfold LowLevel.read_config.
    destruct (Js.startsWith uri "config://azure-data-explorer-creds");
      [|reflexivity].
    unfold LowLevel.config_contents, bind, get_env, ret.
    cbn [process_env result_of fst].
    rewrite SL, (Same "ADX_CLUSTER_NAME"), (Same "ADX_CLIENT_ID"),
      (Same "ADX_TENANT_ID") by discriminate.
    reflexivity.
Qed.

Lemma config_read_does_not_depend_on_the_secret_witness :
  result_of (Templated.config_handler "config://azure-data-explorer-creds"
               (Lifecycle.fresh full_env))
  = result_of (Templated.config_handler "config://azure-data-explorer-creds"
                 (Lifecycle.fresh
                    (<["ADX_CLIENT_SECRET" := "another"]> full_env))).
Proof.
  refine (proj1 (config_read_does_not_depend_on_the_secret full_env
                   (<["ADX_CLIENT_SECRET" := "another"]> full_env) None
                   "config://azure-data-explorer-creds" _ _)).
  - intros key N. symmetry. apply lookup_insert_ne. congruence.
  - vm_compute. reflexivity.
Defined.

(** X18. Start-up and serving compose. With the transport attached and the
    four variables usable, what follows depends on the client library. If
    it hands over a client, [createServer] of the low-level variant
    completes with the handle set to it, and a read of [schema://adx/{db}],
    [db] an identifier, through the server it registered sends
    [.show tables] to that client and replies with what it answers. If the
    builder or the constructor throws, [createServer] rejects and the entry
    file logs the error and ends the process with status 1. *)
Theorem started_server_serves_reads
    (remote : Kusto.Cluster) (dotenv env : gmap string string) (db : string) :
  unusable (env ∪ dotenv) = [] ->
  identifier db = true ->
  exists clusterName clientId clientSecret tenantId,
    (env ∪ dotenv) !! "ADX_CLUSTER_NAME" = Some clusterName
    /\ (env ∪ dotenv) !! "ADX_CLIENT_ID" = Some clientId
    /\ (env ∪ dotenv) !! "ADX_CLIENT_SECRET" = Some clientSecret
    /\ (env ∪ dotenv) !! "ADX_TENANT_ID" = Some tenantId
    /\ match client_for remote clusterName clientId clientSecret tenantId with
       | inr c =>
           let this := LowLevel.initialize LowLevel.constructor in
           let ctx := connected (env ∪ dotenv) c in
           let uri := "schema://adx/" +:+ db in
           LowLevel.createServer (inr tt) remote dotenv (Lifecycle.fresh env)
           = (Normal this, ctx, [])
           /\ LowLevel.dispatch this (Mcp.ReadResourceRequest uri) ctx
              = (match Kusto.execute c db ".show tables" with
                 | inl e => Throw e
                 | inr response =>
                     match Kusto.primaryResults response with
                     | [] => Throw (Js.TypeError
                               "Cannot read properties of undefined (reading 'toString')")
                     | t :: _ =>
                         Normal (Some (LowLevel.text_result uri
                                         ("Schema of the db " +:+ db)
                                         (Kusto.toString t)))
                     end
                 end, ctx, [KustoExecute db ".show tables"])
       | inl e =>
           Lifecycle.main (LowLevel.createServer (inr tt) remote dotenv)
             (Lifecycle.fresh env)
           = (Normal tt, Lifecycle.fresh (env ∪ dotenv),
              [ConsoleError "Error starting ADX MCP server:" (LoggedError e);
               ProcessExit 1])
       end.
Proof.
  intros U I.
  destruct (safeParse_usable _ U) as (a & b & c & d & E1 & E2 & E3 & E4 & E).
  exists a, b, c, d. repeat (split; [assumption|]).
  pose proof (connect_usable remote dotenv env None _ E) as EC.
  cbn [Lifecycle.ADX_CLUSTER_NAME Lifecycle.ADX_CLIENT_ID
       Lifecycle.ADX_CLIENT_SECRET Lifecycle.ADX_TENANT_ID] in EC.
  change {| process_env := env; client := None |}
    with (Lifecycle.fresh env) in EC.
  destruct (client_for remote a b c d) as [e|cl].
  - unfold Lifecycle.main, try_catch, LowLevel.createServer, Lifecycle.start,
      bind, ret, emit.
    cbn beta iota. rewrite EC. reflexivity.
  - cbv zeta. split.
    + unfold LowLevel.createServer, Lifecycle.start, bind, ret.
      cbn beta iota. rewrite EC. reflexivity.
    + rewrite dispatch_read, (read_tables _ _ db I).
      destruct (Kusto.execute cl db ".show tables") as [e|response];
        [reflexivity|].
      destruct (Kusto.primaryResults response); reflexivity.
Qed.

Lemma started_server_serves_reads_witness :
  exists this ctx,
    LowLevel.createServer (inr tt) echo_cluster ∅ (Lifecycle.fresh full_env)
    = (Normal this, ctx, [])
    /\ LowLevel.dispatch this (Mcp.ReadResourceRequest "schema://adx/mydb") ctx
       = (Normal (Some (LowLevel.text_result "schema://adx/mydb"
                          "Schema of the db mydb" "mydb <- .show tables")),
          ctx, [KustoExecute "mydb" ".show tables"]).
Proof.
  destruct (started_server_serves_reads echo_cluster ∅ full_env "mydb")
    as (a & b & c & d & E1 & E2 & E3 & E4 & R).
  - vm_compute. reflexivity.
  - reflexivity.
  - assert (Some a = Some "help") as Ha by (rewrite <- E1; reflexivity).
    assert (Some b = Some "app-id") as Hb by (rewrite <- E2; reflexivity).
    assert (Some c = Some "s3cret") as Hc by (rewrite <- E3; reflexivity).
    assert (Some d = Some "tenant") as Hd by (rewrite <- E4; reflexivity).
    injection Ha as ->. injection Hb as ->.
    injection Hc as ->. injection Hd as ->.
    cbv zeta in R. destruct R as [RC RD].
    eexists. eexists. split; [exact RC|exact RD].
Defined.

(** A client id made of one space passes the validation and is refused by
    the builder: start-up ends the process. *)
Example blank_application_id_ends_the_process :
  Lifecycle.main (LowLevel.createServer (inr tt) strict_cluster ∅)
    (Lifecycle.fresh (<["ADX_CLIENT_ID" := " "]> full_env))
  = (Normal tt, Lifecycle.fresh (<["ADX_CLIENT_ID" := " "]> full_env ∪ ∅),
     [ConsoleError "Error starting ADX MCP server:"
        (LoggedError (Js.PlainError "Invalid app id"));
      ProcessExit 1]).
Proof. vm_compute. reflexivity. Qed.

(** X19. [disconnect] and serving compose. After [disconnect], whatever the
    context was, a read of any address that passes one of the three tests
    raises [Database client is not initialized] and sends nothing, and every
    callback of the templated variant raises [Client is not initialized]:
    no handler uses a client that has been closed. *)
Theorem reads_after_disconnect_raise (ctx : Ctx) (uri : string) :
  let after := ctx_of (LowLevel.disconnect ctx) in
  (test_to_end LowLevel.showTablesRegex uri
   || test_to_end LowLevel.showTableSchemaRegex uri
   || test_to_end LowLevel.showFunctionsRegex uri = true ->
   LowLevel.read_template uri after
   = (Throw LowLevel.not_initialized, after, []))
  /\ (forall href data,
        Templated.schema_of_the_db href data after
        = (Throw Templated.not_initialized, after, [])
        /\ Templated.schema_of_the_table href data after
           = (Throw Templated.not_initialized, after, [])
        /\ Templated.functions_of_the_db href data after
           = (Throw Templated.not_initialized, after, []))
  /\ (forall data,
        Templated.query_handler data after
        = (Throw Templated.not_initialized, after, [])).
Proof.
  cbv zeta.
  assert (client (ctx_of (LowLevel.disconnect ctx)) = None) as N
    by (destruct ctx as [e [c|]]; reflexivity).
  destruct (ctx_of (LowLevel.disconnect ctx)) as [e h]. cbn in N. subst h.
  repeat split.
  intros H. unfold LowLevel.read_template.
  destruct (test_to_end LowLevel.showTablesRegex uri); [reflexivity|].
  destruct (test_to_end LowLevel.showTableSchemaRegex uri); [reflexivity|].
  destruct (test_to_end LowLevel.showFunctionsRegex uri); [reflexivity|].
  discriminate H.
Qed.

Lemma reads_after_disconnect_raise_witness :
  LowLevel.read_template "schema://adx/mydb"
    (ctx_of (LowLevel.disconnect (connected ∅ echo_client)))
  = (Throw LowLevel.not_initialized,
     ctx_of (LowLevel.disconnect (connected ∅ echo_client)), []).
Proof.
  apply (proj1 (reads_after_disconnect_raise (connected ∅ echo_client)
                  "schema://adx/mydb")).
  vm_compute. reflexivity.
Defined.
